(** * Interview dialogue orchestrator (Part3/interviewer.py, api.py)

    A shallow embedding of [InterviewerBot], of the adapter
    [chat_interview_logic] and of the two interview endpoints of api.py,
    followed by the properties of the pacing state machine.

    Conventions.
    - A Python [str] is a [string]; each character stands for one code point
      below 256.  Python [int] counters are [Z].
    - A method that mutates [self] takes the bot and returns the new bot.
    - The collaborators the module does not define (the chat model behind
      [llm.invoke], the clock, the file system) live in an environment [Env]
      that is threaded through every call: the n-th model call gets the n-th
      outcome of a script, and the messages it was given are recorded.
      Properties are stated for every script, hence for every behaviour of
      the model.
    - [print] calls write to the console only and are left out. *)

From Stdlib Require Import ZArith String Ascii DecimalString Lia.
From stdpp Require Import gmap strings list.

Local Open Scope Z_scope.
Local Open Scope string_scope.

(** ** Python string operations used by the module *)

Module PyStr.

(** A string holding one double quote character. *)
Definition dq : string := String (ascii_of_nat 34) EmptyString.

(** [str(n)] for an integer, as an f-string prints it. *)
Definition str_of_int (n : Z) : string := NilZero.string_of_int (Z.to_int n).

(** [c.isspace()] on the code points below 256. *)
Definition isspace (c : ascii) : bool :=
  let n := nat_of_ascii c in
  ((9 <=? n) && (n <=? 13) || (28 <=? n) && (n <=? 32)
   || (n =? 133) || (n =? 160))%nat.

(** [s.lstrip()] *)
Fixpoint lstrip (s : string) : string :=
  match s with
  | EmptyString => EmptyString
  | String c s' => if isspace c then lstrip s' else s
  end.

(** [s.rstrip()] *)
Fixpoint rstrip (s : string) : string :=
  match s with
  | EmptyString => EmptyString
  | String c s' =>
      match rstrip s' with
      | EmptyString => if isspace c then EmptyString else String c EmptyString
      | r => String c r
      end
  end.

(** [s.strip()] *)
Definition strip (s : string) : string := rstrip (lstrip s).

(** [s.startswith(p)] *)
Definition startswith (s p : string) : bool := String.prefix p s.

(** [sub in s] *)
Fixpoint contains (sub s : string) : bool :=
  String.prefix sub s ||
  match s with
  | EmptyString => false
  | String _ s' => contains sub s'
  end.

(** [s.replace(old, new)] for a non-empty [old]: one scan from the left;
    at a match [new] is emitted and the scan resumes after the match, so the
    output is never scanned again.  [skip] counts the characters of the
    current match that are still to be passed over. *)
Fixpoint replace_from (old new : string) (skip : nat) (s : string) : string :=
  match s with
  | EmptyString => EmptyString
  | String c s' =>
      match skip with
      | S k => replace_from old new k s'
      | O =>
          if String.prefix old s
          then new +:+ replace_from old new (String.length old - 1) s'
          else String c (replace_from old new O s')
      end
  end.

Definition replace (s old new : string) : string := replace_from old new O s.

(** [any(s.startswith(p) for p in ps)] *)
Definition any_startswith (s : string) (ps : list string) : bool :=
  existsb (startswith s) ps.

End PyStr.

Import PyStr.

(** ** Configuration (shared constants) *)

Definition SENTINEL_END_PHRASE : string := "<<END_INTERVIEW>>".
Definition TERMINATION_TAG : string := "PROTOCOL_TERMINATE_UNPROFESSIONAL".
Definition WARNING_TAG : string := "PROTOCOL_WARNING_UNPROFESSIONAL".
Definition PIVOT_TAG : string := "PROTOCOL_PIVOT_TO_NEW_TOPIC".
Definition SOFT_CLOSE_TAG : string := "PROTOCOL_INITIATE_SOFT_CLOSE".

Definition MAX_WARNINGS : Z := 1.
Definition MAX_PRIMARY_QUESTIONS : Z := 5.
Definition MAX_ELABORATIONS : Z := 1.
Definition TRANSCRIPT_FILE : string := "interview_transcript.json".

Definition REPETITION_PHRASES : list string :=
  [ "To ensure clarity, I will repeat the question:";
    "Let me clarify that point for you:";
    "I'm happy to rephrase the question:" ].

(** ** Data model *)

(** One transcript record, the dict [{"type": ..., "content": ...}]. *)
Record Entry := mkEntry { etype : string; content : string }.

(** LangChain messages, by class. *)
Inductive Message :=
| SystemMessage (text : string)
| HumanMessage (text : string)
| AIMessage (text : string).

(** The attributes of an [InterviewerBot]; [memory] is the message list
    [self.memory.chat_memory.messages]. *)
Record Bot := mkBot {
  job_description : string;
  resume_content : string;
  job_level : string;
  candidate_name : string;
  warning_count : Z;
  primary_question_count : Z;
  elaboration_count : Z;
  is_finished : bool;
  is_in_soft_close : bool;
  transcript_history : list Entry;
  memory : list Message
}.

(** The dict built by [get_context_for_grading]. *)
Record GradingContext := mkContext {
  ctx_timestamp : Z;
  ctx_job_level : string;
  ctx_candidate_name : string;
  ctx_job_description : string;
  ctx_resume_content : string;
  ctx_transcript : list Entry
}.

(** Outcome of a call that may raise: a value, or the text of the
    exception. *)
Inductive PyResult (A : Type) :=
| PyReturn (a : A)
| PyRaise (e : string).
Arguments PyReturn {A} a.
Arguments PyRaise {A} e.

(** The world outside the module.
    - [llm_script n] is the outcome of the n-th call of [llm.invoke]: the
      [content] of the response, or an exception;
    - [llm_calls] lists the message lists passed so far, oldest first;
    - [now] is the reading of [time.time()];
    - [fs_script n] tells whether the n-th write of the transcript file
      succeeds, [fs_saved] lists the contexts written so far. *)
Record Env := mkEnv {
  llm_script : nat -> PyResult string;
  llm_calls : list (list Message);
  now : Z;
  fs_script : nat -> bool;
  fs_writes : nat;
  fs_saved : list GradingContext
}.

(** [self.llm.invoke(messages)] followed by reading [response.content]. *)
Definition llm_invoke (messages : list Message) (env : Env) : PyResult string * Env :=
  (llm_script env (List.length (llm_calls env)),
   mkEnv (llm_script env) (llm_calls env ++ [messages]) (now env)
         (fs_script env) (fs_writes env) (fs_saved env)).

(** Opening [TRANSCRIPT_FILE] for writing and dumping the context into it. *)
Definition write_transcript_file (ctx : GradingContext) (env : Env) : bool * Env :=
  let ok := fs_script env (fs_writes env) in
  (ok,
   mkEnv (llm_script env) (llm_calls env) (now env) (fs_script env)
         (S (fs_writes env))
         (if ok then fs_saved env ++ [ctx] else fs_saved env)).

(** *** Attribute assignments *)

Definition set_warning_count (v : Z) (b : Bot) : Bot :=
  mkBot (job_description b) (resume_content b) (job_level b) (candidate_name b)
        v (primary_question_count b) (elaboration_count b)
        (is_finished b) (is_in_soft_close b) (transcript_history b) (memory b).

Definition set_primary_question_count (v : Z) (b : Bot) : Bot :=
  mkBot (job_description b) (resume_content b) (job_level b) (candidate_name b)
        (warning_count b) v (elaboration_count b)
        (is_finished b) (is_in_soft_close b) (transcript_history b) (memory b).

Definition set_elaboration_count (v : Z) (b : Bot) : Bot :=
  mkBot (job_description b) (resume_content b) (job_level b) (candidate_name b)
        (warning_count b) (primary_question_count b) v
        (is_finished b) (is_in_soft_close b) (transcript_history b) (memory b).

Definition set_is_finished (v : bool) (b : Bot) : Bot :=
  mkBot (job_description b) (resume_content b) (job_level b) (candidate_name b)
        (warning_count b) (primary_question_count b) (elaboration_count b)
        v (is_in_soft_close b) (transcript_history b) (memory b).

Definition set_is_in_soft_close (v : bool) (b : Bot) : Bot :=
  mkBot (job_description b) (resume_content b) (job_level b) (candidate_name b)
        (warning_count b) (primary_question_count b) (elaboration_count b)
        (is_finished b) v (transcript_history b) (memory b).

(** [self.transcript_history.append({"type": t, "content": c})] *)
Definition transcript_append (t c : string) (b : Bot) : Bot :=
  mkBot (job_description b) (resume_content b) (job_level b) (candidate_name b)
        (warning_count b) (primary_question_count b) (elaboration_count b)
        (is_finished b) (is_in_soft_close b)
        (transcript_history b ++ [mkEntry t c]) (memory b).

(** [self.memory.chat_memory.add_ai_message] / [add_user_message] *)
Definition memory_add (m : Message) (b : Bot) : Bot :=
  mkBot (job_description b) (resume_content b) (job_level b) (candidate_name b)
        (warning_count b) (primary_question_count b) (elaboration_count b)
        (is_finished b) (is_in_soft_close b) (transcript_history b)
        (memory b ++ [m]).

(** ** The system instruction *)

Definition _get_system_instruction
    (job_description_ resume_content_ job_level_ candidate_name_ : string) : string :=
  "
You are the **Ultra-Paced Expert Technical Interviewer AI** named **'InterviewerBot'**. Your persona is **highly professional, objective, supportive, and efficient**. Your primary goal is a **rapid, high-signal assessment** that feels conversational.

--- CONTEXT ---
Job Description: " +:+
  job_description_ +:+
  "
Candidate Resume: " +:+
  resume_content_ +:+
  "
The target role level is dynamically set to: **" +:+
  job_level_ +:+
  "**.

--- CORE INTERVIEW OBJECTIVES (EFFICIENCY & CLARITY) ---

1. **Primary Questions:** Limit total primary topics to **" +:+
  str_of_int MAX_PRIMARY_QUESTIONS +:+
  " MAX**.
2. **Follow-up Limit (STRICT):** You **MUST** ask exactly **one (1)** follow-up question per primary topic. This forces a quick transition.

3. **Conversational Non-Answer Handling (CRITICAL NEW FOCUS):**
    * **Repetition/Clarification:** If the candidate's last message is a clear non-answer or an explicit request for repetition/clarification, you **MUST** preface your response with one of the specific starter phrases: " +:+
  dq +:+
  "To ensure clarity, I will repeat the question:" +:+
  dq +:+
  ", " +:+
  dq +:+
  "Let me clarify that point for you:" +:+
  dq +:+
  ", or " +:+
  dq +:+
  "I'm happy to rephrase the question:" +:+
  dq +:+
  ", then state the *exact* last question/follow-up.
    * **Failed/Weak Answer:** Treat it as a technical turn and proceed with the single required follow-up (if not done yet), or pivot immediately (if done).

4. **Question Quality:** Use the first-person pronoun **'I'**. Every question MUST be based directly on the Resume or Job Description.

--- RULES (SIGNALING INTENT TO PYTHON) ---

1. **Disruptive Conduct Check:** If the candidate's last message is abusive, profane, or clearly insulting/dismissive, your **ENTIRE response MUST ONLY be the exact tag: " +:+
  WARNING_TAG +:+
  "**.
2. **Graceful Exit Signal:** Once you have completed your target number of primary topics, your final turn **must** contain a clear, non-technical wrap-up question.
3. **Sentinel Phrase:** When ready for the final goodbye, include the exact, standalone phrase: " +:+
  SENTINEL_END_PHRASE +:+
  ".
".

(** ** class InterviewerBot *)

(** [InterviewerBot.__init__] *)
Definition new_bot (job_desc_str resume_content_str job_level_ candidate_name_ : string) : Bot :=
  mkBot job_desc_str resume_content_str job_level_ candidate_name_
        0 0 0 false false [] [].

Definition get_system_instruction (self : Bot) : string :=
  _get_system_instruction (job_description self) (resume_content self)
                          (job_level self) (candidate_name self).

(** [init_session]: the greeting is the first transcript entry. *)
Definition init_session (self : Bot) : string * Bot :=
  let initial_greeting :=
    "Hello " +:+ candidate_name self +:+
    ", thank you for joining me today. We have a short time, so let's jump right into the technical discussion. How are you doing?" in
  let self := transcript_append "ai" initial_greeting self in
  let self := memory_add (AIMessage initial_greeting) self in
  (initial_greeting, self).

(** The text produced when the model call raises. *)
Definition llm_error_message (e : string) : string :=
  "[LLM_ERROR] The AI model failed to respond: " +:+ e.

(** [_invoke_llm_for_response]: the model is called once; an exception is
    caught and its text returned in place of the reply. *)
Definition _invoke_llm_for_response (self : Bot) (action_guide : string) (env : Env)
  : string * Env :=
  let messages :=
    SystemMessage (get_system_instruction self)
      :: (memory self ++ [HumanMessage action_guide]) in
  let '(response, env) := llm_invoke messages env in
  match response with
  | PyReturn text => (strip text, env)
  | PyRaise e => (llm_error_message e, env)
  end.

Definition termination_message : string :=
  "I appreciate your time, but given the lack of professional engagement, I must conclude this interview now.".

Definition warning_message : string :=
  "I noticed your last response was unprofessional. Please maintain a professional demeanor. I'll re-ask the question.".

Definition re_ask_message : string :=
  "The candidate has been warned. Acknowledge this and output the *exact* last technical question (or follow-up) asked before the candidate's last message. DO NOT PIVOT. DO NOT REPEAT THE WARNING MESSAGE.".

(** The second half of [_handle_protocol_response] (from the sentinel test
    to the end), reached by a reply that is not the warning tag and by the
    re-asked reply after a first warning. *)
Definition _handle_sentinel (self : Bot) (bot_text : string) : string * Bot :=
  if contains SENTINEL_END_PHRASE bot_text then
    let self := set_is_finished true self in
    let final_message := strip (replace bot_text SENTINEL_END_PHRASE "") in
    let self := transcript_append "PROTOCOL" SENTINEL_END_PHRASE self in
    let self := transcript_append "ai" final_message self in
    (final_message, self)
  else
    let self := transcript_append "ai" bot_text self in
    let self := memory_add (AIMessage bot_text) self in
    (bot_text, self).

(** [_handle_protocol_response]: handles tags and updates internal state. *)
Definition _handle_protocol_response (self : Bot) (bot_text : string) (env : Env)
  : string * Bot * Env :=
  if String.eqb bot_text WARNING_TAG then
    let self := set_warning_count (warning_count self + 1) self in
    let self := transcript_append "PROTOCOL" WARNING_TAG self in
    if (warning_count self >? MAX_WARNINGS)%Z then
      let self := set_is_finished true self in
      let self := transcript_append "PROTOCOL" TERMINATION_TAG self in
      let self := transcript_append "ai" termination_message self in
      (termination_message, self, env)
    else
      let self := transcript_append "ai" warning_message self in
      let self := memory_add (AIMessage warning_message) self in
      let '(bot_text, env) := _invoke_llm_for_response self re_ask_message env in
      let '(final_message, self) := _handle_sentinel self bot_text in
      (final_message, self, env)
  else
    let '(final_message, self) := _handle_sentinel self bot_text in
    (final_message, self, env).

(** The three action guides of [process_turn]. *)
Definition first_topic_guide : string :=
  "Analyze the candidate's LATEST message. If abusive/profane, output the protocol tag. Otherwise, acknowledge the greeting, then transition immediately to the first primary technical question (Question 1) based on the rules.".

Definition follow_up_guide (self : Bot) : string :=
  "The candidate has responded. Based on the rules: If they asked for repetition/clarification, use one of the specific starter phrases and repeat the last question. Otherwise, you MUST now ask the single required follow-up question (Elaboration Count: "
  +:+ str_of_int (elaboration_count self + 1)
  +:+ "). Check for abuse and output the warning tag if detected.".

Definition pivot_guide (self : Bot) : string :=
  "The current topic is complete (Max Elaborations: "
  +:+ str_of_int MAX_ELABORATIONS
  +:+ " reached). Acknowledge the candidate's last answer *briefly*, then gracefully pivot and ask a NEW primary technical question (Question "
  +:+ str_of_int (primary_question_count self + 1)
  +:+ ") based on the Resume/JD. Check for abuse and output the warning tag if detected.".

Definition soft_close_prompt : string :=
  "The technical interview section is complete. Output ONLY the final soft close question (Rule 2: 'Do you have any final questions for me...').".

Definition final_signal_prompt : string :=
  "The candidate has replied to your soft close question. Reply conversationally to their final statement/question, and then immediately output the exact, standalone phrase: "
  +:+ SENTINEL_END_PHRASE
  +:+ ". DO NOT ASK NEW QUESTIONS OR FOLLOW-UPS.".

(** [_initiate_soft_close] *)
Definition _initiate_soft_close (self : Bot) (env : Env) : (string * bool) * Bot * Env :=
  let self := set_is_in_soft_close true self in
  let '(bot_text, env) := _invoke_llm_for_response self soft_close_prompt env in
  let self := transcript_append "PROTOCOL" SOFT_CLOSE_TAG self in
  let self := transcript_append "ai" bot_text self in
  let self := memory_add (AIMessage bot_text) self in
  ((bot_text, false), self, env).

(** [_continue_soft_close] *)
Definition _continue_soft_close (self : Bot) (candidate_reply : string) (env : Env)
  : (string * bool) * Bot * Env :=
  let '(bot_text, env) := _invoke_llm_for_response self final_signal_prompt env in
  if contains SENTINEL_END_PHRASE bot_text then
    let self := set_is_finished true self in
    let final_message := strip (replace bot_text SENTINEL_END_PHRASE "") in
    let self := transcript_append "PROTOCOL" SENTINEL_END_PHRASE self in
    let self := transcript_append "ai" final_message self in
    ((final_message, true), self, env)
  else
    let self := transcript_append "ai" bot_text self in
    let self := memory_add (AIMessage bot_text) self in
    ((bot_text, false), self, env).

(** The action guide chosen by the ordinary path of [process_turn]. *)
Definition action_guide (self : Bot) : string :=
  if (primary_question_count self =? 0)%Z then first_topic_guide
  else if (elaboration_count self <? MAX_ELABORATIONS)%Z then follow_up_guide self
  else pivot_guide self.

(** The counter update at the end of [process_turn], for a reply that is not
    a repetition. *)
Definition advance_counters (self : Bot) : Bot :=
  if (primary_question_count self =? 0)%Z then
    set_primary_question_count 1 self
  else if (elaboration_count self >=? MAX_ELABORATIONS)%Z then
    let self := set_primary_question_count (primary_question_count self + 1) self in
    let self := set_elaboration_count 0 self in
    transcript_append "PROTOCOL" PIVOT_TAG self
  else
    set_elaboration_count (elaboration_count self + 1) self.

(** [process_turn]: processes one turn of candidate input. *)
Definition process_turn (self : Bot) (candidate_reply : string) (env : Env)
  : (string * bool) * Bot * Env :=
  let self := transcript_append "human" candidate_reply self in
  let self := memory_add (HumanMessage candidate_reply) self in
  if is_in_soft_close self then
    _continue_soft_close self candidate_reply env
  else if (primary_question_count self >=? MAX_PRIMARY_QUESTIONS)%Z then
    _initiate_soft_close self env
  else
    let '(bot_text, env) := _invoke_llm_for_response self (action_guide self) env in
    let '(final_bot_text, self, env) := _handle_protocol_response self bot_text env in
    if is_finished self then
      ((final_bot_text, true), self, env)
    else
      let is_repetition := any_startswith final_bot_text REPETITION_PHRASES in
      let self := if negb is_repetition then advance_counters self else self in
      ((final_bot_text, is_finished self), self, env).

(** [get_context_for_grading]: builds the context and tries to save it; a
    failed write is caught and the context is returned all the same. *)
Definition get_context_for_grading (self : Bot) (env : Env) : GradingContext * Env :=
  let final_context :=
    mkContext (now env) (job_level self) (candidate_name self)
              (job_description self) (resume_content self)
              (transcript_history self) in
  let '(_, env) := write_transcript_file final_context env in
  (final_context, env).

(** ** Public adapter functions *)

(** What [start_interview_logic] derives from the two parsed documents with
    [json.dumps] and [dict.get]: the four strings given to the constructor. *)
Record SessionContext := mkSessionContext {
  sc_job_desc_str : string;
  sc_resume_content_str : string;
  sc_job_level : string;
  sc_candidate_name : string
}.

(** [start_interview_logic] *)
Definition start_interview_logic (c : SessionContext) : string * Bot :=
  init_session (new_bot (sc_job_desc_str c) (sc_resume_content_str c)
                        (sc_job_level c) (sc_candidate_name c)).

(** The call [interviewer_instance.process_turn(candidate_reply)] as the
    adapter sees it: it returns a pair or raises, and in both cases it may
    have changed the instance and the world. *)
Definition TurnMethod : Type :=
  Bot -> string -> Env -> PyResult (string * bool) * Bot * Env.

(** [chat_interview_logic] around an arbitrary [process_turn] method: the
    [try]/[except Exception] block, then the call of
    [get_context_for_grading] when the turn's flag is set. *)
Definition chat_interview_logic_with (turn : TurnMethod)
    (interviewer_instance : Bot) (candidate_reply : string) (env : Env)
  : (string * bool * option GradingContext) * Bot * Env :=
  let '(outcome, interviewer_instance, env) :=
    turn interviewer_instance candidate_reply env in
  let '(ai_response, is_finished_) :=
    match outcome with
    | PyReturn (ai_response, is_finished_) => (ai_response, is_finished_)
    | PyRaise e => ("Internal chat processing failure: " +:+ e, true)
    end in
  if is_finished_ then
    let '(final_context, env) := get_context_for_grading interviewer_instance env in
    ((ai_response, is_finished_, Some final_context), interviewer_instance, env)
  else
    ((ai_response, is_finished_, None), interviewer_instance, env).

(** The method of [InterviewerBot]: [process_turn] has no [raise] and its
    only fallible call is guarded inside [_invoke_llm_for_response]. *)
Definition process_turn_method : TurnMethod :=
  fun self candidate_reply env =>
    let '(r, self, env) := process_turn self candidate_reply env in
    (PyReturn r, self, env).

(** [chat_interview_logic] *)
Definition chat_interview_logic (interviewer_instance : Bot) (candidate_reply : string)
    (env : Env) : (string * bool * option GradingContext) * Bot * Env :=
  chat_interview_logic_with process_turn_method interviewer_instance candidate_reply env.

(** ** The interview endpoints of api.py *)

Module Api.

(** What an endpoint answers: an [InterviewResponse] or an
    [HTTPException]. *)
Inductive Response :=
| InterviewResponse (session_id message : string) (is_finished_ : bool)
                    (final_context : option GradingContext)
| HTTPException (status_code : Z) (detail : string).

(** The body of a start request after [json.loads] and the derivation of
    the constructor arguments: the JSON text is malformed, or deriving the
    arguments raises, or the four strings are obtained. *)
Inductive StartBody :=
| InvalidJson
| StartFails (e : string)
| Documents (c : SessionContext).

(** The server state: the dict [INTERVIEW_SESSIONS] and the world. *)
Record State := mkState {
  INTERVIEW_SESSIONS : gmap string Bot;
  world : Env
}.

(** [start_interview]; [session_id] is the value drawn by [uuid.uuid4()]. *)
Definition start_interview (session_id : string) (data : StartBody) (st : State)
  : Response * State :=
  match data with
  | InvalidJson =>
      (HTTPException 400 "Invalid JSON format for Job Description or Resume content.", st)
  | StartFails e =>
      (HTTPException 500 ("Failed to start interview session: " +:+ e), st)
  | Documents c =>
      let '(first_message, interviewer_instance) := start_interview_logic c in
      (InterviewResponse session_id first_message false None,
       mkState (<[session_id := interviewer_instance]> (INTERVIEW_SESSIONS st))
               (world st))
  end.

(** [continue_interview].  The dict holds the instance that the turn
    mutates, so the entry is the bot after the turn; it is deleted when the
    turn's flag is set.  [chat_interview_logic] returns on every input, so
    the endpoint's own [except] branch is never entered. *)
Definition continue_interview (session_id candidate_reply : string) (st : State)
  : Response * State :=
  match INTERVIEW_SESSIONS st !! session_id with
  | None =>
      (HTTPException 404 "Interview session not found or has expired.", st)
  | Some interviewer_instance =>
      let '((ai_response, is_finished_, final_context), interviewer_instance, env) :=
        chat_interview_logic interviewer_instance candidate_reply (world st) in
      let sessions := <[session_id := interviewer_instance]> (INTERVIEW_SESSIONS st) in
      let sessions := if is_finished_ then delete session_id sessions else sessions in
      (InterviewResponse session_id ai_response is_finished_ final_context,
       mkState sessions env)
  end.

(** A request to one of the two endpoints. *)
Inductive Request :=
| Start (session_id : string) (data : StartBody)
| Chat (session_id candidate_reply : string).

Definition handle (r : Request) (st : State) : Response * State :=
  match r with
  | Start session_id data => start_interview session_id data st
  | Chat session_id candidate_reply => continue_interview session_id candidate_reply st
  end.

(** The server state after a list of requests, served one after the
    other. *)
Definition serve (rs : list Request) (st : State) : State :=
  fold_left (fun st r => snd (handle r st)) rs st.

End Api.

(** ** Vocabulary of the specification *)

(** The outcome that the next model call will get. *)
Definition next_outcome (env : Env) : PyResult string :=
  llm_script env (List.length (llm_calls env)).

(** The outcome that the model call after the next one will get. *)
Definition second_outcome (env : Env) : PyResult string :=
  llm_script env (S (List.length (llm_calls env))).

(** The text that [_invoke_llm_for_response] hands back for an outcome of the
    model call. *)
Definition generated_text (r : PyResult string) : string :=
  match r with
  | PyReturn text => strip text
  | PyRaise e => llm_error_message e
  end.

(** The message list that [_invoke_llm_for_response] builds. *)
Definition prompt_for (self : Bot) (guide : string) : list Message :=
  SystemMessage (get_system_instruction self)
    :: (memory self ++ [HumanMessage guide]).

(** The world after one more model call with [messages]. *)
Definition after_call (messages : list Message) (env : Env) : Env :=
  mkEnv (llm_script env) (llm_calls env ++ [messages]) (now env)
        (fs_script env) (fs_writes env) (fs_saved env).

(** The pacing policy in the words of the specification (section 4.3). *)
Inductive Guide := FIRST_TOPIC | ASK_FOLLOW_UP | PIVOT_NEW_TOPIC.

Definition spec_pacing_policy
    (primaryQuestionCount elaborationCount maxElaborations : Z) : Guide :=
  if (primaryQuestionCount =? 0)%Z then FIRST_TOPIC
  else if (elaborationCount <? maxElaborations)%Z then ASK_FOLLOW_UP
  else PIVOT_NEW_TOPIC.

(** The counter update rule in the words of the specification, on the pair
    (primaryQuestionCount, elaborationCount). *)
Definition spec_counter_update (g : Guide) (counters : Z * Z) : Z * Z :=
  let '(primaryQuestionCount, elaborationCount) := counters in
  match g with
  | FIRST_TOPIC => (1, elaborationCount)
  | PIVOT_NEW_TOPIC => (primaryQuestionCount + 1, 0)
  | ASK_FOLLOW_UP => (primaryQuestionCount, elaborationCount + 1)
  end.

(** The instruction text that stands for each guide. *)
Definition guide_text (g : Guide) (self : Bot) : string :=
  match g with
  | FIRST_TOPIC => first_topic_guide
  | ASK_FOLLOW_UP => follow_up_guide self
  | PIVOT_NEW_TOPIC => pivot_guide self
  end.

(** The bot as [process_turn] sees it once the candidate's reply has been
    recorded. *)
Definition heard (self : Bot) (candidate_reply : string) : Bot :=
  memory_add (HumanMessage candidate_reply)
             (transcript_append "human" candidate_reply self).

(** The entry is written by the interviewer side: an [ai] or a [PROTOCOL]
    record. *)
Definition bot_side (e : Entry) : Prop :=
  etype e = "ai" \/ etype e = "PROTOCOL".

(** *** Sessions as they evolve *)

(** States reached from a new session by [init_session] and by turns made
    on any state, finished or not. *)
Inductive reachable : Bot -> Prop :=
| reach_new jd rc lvl name :
    reachable (new_bot jd rc lvl name)
| reach_init self :
    reachable self -> reachable (snd (init_session self))
| reach_turn self candidate_reply env :
    reachable self ->
    reachable (snd (fst (process_turn self candidate_reply env))).

(** States reached when a turn is only made on a session that is not
    finished, which is how the chat endpoint drives a session. *)
Inductive live_reachable : Bot -> Prop :=
| live_new jd rc lvl name :
    live_reachable (new_bot jd rc lvl name)
| live_init self :
    live_reachable self -> live_reachable (snd (init_session self))
| live_turn self candidate_reply env :
    live_reachable self ->
    is_finished self = false ->
    live_reachable (snd (fst (process_turn self candidate_reply env))).


(** *** Reading results *)

(** The parts of what [process_turn] returns: the reply, the flag, the bot
    and the world after the turn. *)
Definition reply_of {A} (r : (string * A) * Bot * Env) : string := fst (fst (fst r)).
Definition flag_of {A} (r : (string * A) * Bot * Env) : A := snd (fst (fst r)).
Definition bot_of {A} (r : A * Bot * Env) : Bot := snd (fst r).
Definition env_of {A} (r : A * Bot * Env) : Env := snd r.

(** The parts of the triple returned by [chat_interview_logic]. *)
Definition chat_reply (r : (string * bool * option GradingContext) * Bot * Env)
  : string := fst (fst (fst (fst r))).
Definition chat_flag (r : (string * bool * option GradingContext) * Bot * Env)
  : bool := snd (fst (fst (fst r))).
Definition chat_context (r : (string * bool * option GradingContext) * Bot * Env)
  : option GradingContext := snd (fst (fst r)).

(** *** Bounds and server invariant *)




(** ** Scripted sessions, for concrete runs *)

(** A world whose model calls get the listed outcomes in order (and fail
    once the list is used up), with a clock that reads 0 and a disk that
    accepts every write. *)
Definition scripted (outcomes : list (PyResult string)) : Env :=
  mkEnv (fun n => nth n outcomes (PyRaise "script exhausted")) [] 0
        (fun _ => true) O [].

(** The session and the world after the candidate's replies were processed
    one by one. *)
Definition converse (replies : list string) (start : Bot * Env) : Bot * Env :=
  fold_left (fun s reply => let r := process_turn (fst s) reply (snd s) in
                            (bot_of r, env_of r))
            replies start.

(** A session just started for a candidate called Ada. *)
Definition ada : Bot :=
  snd (start_interview_logic (mkSessionContext "{}" "{}" "General" "Ada")).


(** A candidate who is rude twice: the second warning ends the session.  The
    script holds one more warning tag for a turn made after that. *)
Definition dismissed_session : Bot * Env :=
  converse ["whatever"; "this is stupid"]
    (ada, scripted [PyReturn WARNING_TAG;
                    PyReturn "Let us try again: how are you doing?";
                    PyReturn WARNING_TAG;
                    PyReturn WARNING_TAG]).

(** A session whose candidate answered nine times, so that five primary
    questions and their follow-ups have been asked; [wrap_up] is the outcome
    the next model call will get. *)
Definition five_topics (wrap_up : PyResult string) : Bot * Env :=
  converse
    ["I am fine, thanks."; "answer 1"; "more on 1"; "answer 2"; "more on 2";
     "answer 3"; "more on 3"; "answer 4"; "more on 4"]
    (ada,
     scripted
       [PyReturn "Question 1?"; PyReturn "Follow-up 1?";
        PyReturn "Question 2?"; PyReturn "Follow-up 2?";
        PyReturn "Question 3?"; PyReturn "Follow-up 3?";
        PyReturn "Question 4?"; PyReturn "Follow-up 4?";
        PyReturn "Question 5?"; wrap_up]).

(** A server that started one interview and served one chat turn. *)
Definition one_chat_server : Api.State :=
  Api.serve
    [Api.Start "session-1"
       (Api.Documents (mkSessionContext "{}" "{}" "General" "Ada"));
     Api.Chat "session-1" "I am fine, thanks."]
    (Api.mkState ∅ (scripted [PyReturn "Good. Tell me about your last project."])).

(** Whether every turn of a conversation is made on a session that is not
    finished. *)
Fixpoint all_open (replies : list string) (start : Bot * Env) : bool :=
  match replies with
  | [] => true
  | reply :: replies =>
      negb (is_finished (fst start))
      && all_open replies
           (bot_of (process_turn (fst start) reply (snd start)),
            env_of (process_turn (fst start) reply (snd start)))
  end.

(** A candidate who is rude once and then answers: a warning with the
    question restated, a follow-up, a pivot to the next question and a
    follow-up again. *)
Definition warned_session : Bot * Env :=
  converse ["whatever"; "Sorry. I am fine, thanks."; "answer 1"; "more on 1"]
    (ada, scripted [PyReturn WARNING_TAG;
                    PyReturn "Let us try again: how are you doing?";
                    PyReturn "Follow-up 1?";
                    PyReturn "Question 2?";
                    PyReturn "Follow-up 2?"]).

(** A candidate who is rude on the first turn while the model fails when
    asked to restate its question. *)
Definition failed_restatement : Env :=
  scripted [PyReturn WARNING_TAG; PyRaise "request timed out"].

(** A [process_turn] that fails on entry. *)
Definition failing_turn : TurnMethod :=
  fun self _ env => (PyRaise "connection reset", self, env).

(** ** Pacing schedule *)

(** The number of schedule steps a session has taken: the first question
    is step 1, every follow-up and every pivot is one more step. *)
Definition pacing_progress (self : Bot) : Z :=
  if (primary_question_count self =? 0)%Z then 0
  else 2 * primary_question_count self - 1 + elaboration_count self.

(** The relations between the two pacing counters on a session. *)
Definition on_schedule (self : Bot) : Prop :=
  (0 <= primary_question_count self <= MAX_PRIMARY_QUESTIONS)%Z
  /\ (0 <= elaboration_count self <= MAX_ELABORATIONS)%Z
  /\ (primary_question_count self = 0%Z -> elaboration_count self = 0%Z)
  /\ (primary_question_count self = MAX_PRIMARY_QUESTIONS ->
      elaboration_count self = 0%Z).

(** The guide given to the first model call of a turn. *)
Definition turn_guide (self : Bot) : string :=
  if is_in_soft_close self then final_signal_prompt
  else if (primary_question_count self >=? MAX_PRIMARY_QUESTIONS)%Z
       then soft_close_prompt
       else action_guide self.

(** The turn is an ordinary one whose first reply is the warning tag and
    whose warning does not end the session, so that the model is asked to
    restate its question. *)
Definition restates_question (self : Bot) (env : Env) : bool :=
  negb (is_in_soft_close self)
  && negb (primary_question_count self >=? MAX_PRIMARY_QUESTIONS)%Z
  && String.eqb (generated_text (next_outcome env)) WARNING_TAG
  && negb (warning_count self + 1 >? MAX_WARNINGS)%Z.

(** The transcript entry that marks a pivot. *)
Definition is_pivot_marker (e : Entry) : bool :=
  String.eqb (etype e) "PROTOCOL" && String.eqb (content e) PIVOT_TAG.

(** ** Part3/grader.py and the grading endpoint *)

Module Grader.

(** [class InterviewRating] *)
Record InterviewRating := mkRating {
  overall_score : Z;
  strengths : list string;
  weaknesses : list string;
  hiring_recommendation : string
}.

Definition EVALUATION_FILE : string := "final_evaluation_report.json".
Definition PASSING_THRESHOLD : Z := 70.

(** An exception as the grading endpoint tells them apart: whether it is a
    [NotImplementedError], and its text [str(e)]. *)
Record Exn := mkExn { is_not_implemented : bool; exn_text : string }.

Inductive Outcome (A : Type) :=
| Returned (a : A)
| Raised (e : Exn).
Arguments Returned {A} a.
Arguments Raised {A} e.

(** The world of the grader: [rating_script n] is the outcome of the n-th
    call of a grading chain, [rating_calls] the message lists passed so far;
    [report_script n] is the exception raised by the n-th write of the
    report file, if any, and [reports_saved] the reports written. *)
Record World := mkWorld {
  rating_script : nat -> Outcome InterviewRating;
  rating_calls : list (list Message);
  report_script : nat -> option Exn;
  report_writes : nat;
  reports_saved : list InterviewRating
}.

(** [grading_chain.invoke(messages)] *)
Definition chain_invoke (messages : list Message) (w : World)
  : Outcome InterviewRating * World :=
  (rating_script w (List.length (rating_calls w)),
   mkWorld (rating_script w) (rating_calls w ++ [messages]) (report_script w)
           (report_writes w) (reports_saved w)).

(** Opening [EVALUATION_FILE] for writing and dumping the report into it. *)
Definition write_report (report : InterviewRating) (w : World) : option Exn * World :=
  let failure := report_script w (report_writes w) in
  (failure,
   mkWorld (rating_script w) (rating_calls w) (report_script w)
           (S (report_writes w))
           (match failure with
            | None => (reports_saved w ++ [report])%list
            | Some _ => reports_saved w
            end)).

(** The context dict as far as [evaluate_candidate] reads it: the entries
    it looks up, each present or not, holding strings and a list of
    type/content records as [get_context_for_grading] builds them, and
    whether the dict has any other key. *)
Record ContextDict := mkContextDict {
  cd_job_level : option string;
  cd_job_description : option string;
  cd_resume_content : option string;
  cd_transcript : option (list Entry);
  cd_other_keys : bool
}.

(** Whether a key is in the dict. *)
Definition present {A} (o : option A) : bool :=
  match o with Some _ => true | None => false end.

(** [not context] for a dict. *)
Definition is_empty_dict (c : ContextDict) : bool :=
  negb (present (cd_job_level c)) && negb (present (cd_job_description c))
  && negb (present (cd_resume_content c)) && negb (present (cd_transcript c))
  && negb (cd_other_keys c).

(** The dict that [get_context_for_grading] returns. *)
Definition context_dict_of (c : GradingContext) : ContextDict :=
  mkContextDict (Some (ctx_job_level c)) (Some (ctx_job_description c))
                (Some (ctx_resume_content c)) (Some (ctx_transcript c)) true.

Definition vague_penalty_instruction : string :=
  "
    ***VAGUENESS PENALTY: CRITICALLY DEDUCT POINTS IF*** a candidate's answer is overly vague, uses generic buzzwords without specific examples, or avoids providing concrete technical details when asked. Vagueness must be treated as a significant weakness.
    ".

(** The two debate prompts; [initial_score_json] fills the placeholder of
    the challenger's. *)
Definition debate_prompt (agent_role initial_score_json : string) : string :=
  if String.eqb agent_role "Initial Scorer" then
  "
        You are the primary scoring agent. Your **#1 priority** is to assess the candidate's **Mentality and Approach** to problem-solving.
        
        **SCORING GUIDELINE (CRITICAL):** Grade with leniency, focusing on **potential and curiosity**. Start the score high (e.g., 90/100) and deduct points only for specific, major errors or complete knowledge failures required for the job. Do not score harshly on minor confusion.
        " +:+
  vague_penalty_instruction +:+
  "
        
        Provide a holistic score and detailed summary strictly based on the transcript, assessing:
        1. **Mentality:** Self-awareness, curiosity, handling ambiguity, and problem-solving method.
        2. **Technical Depth:** Accuracy against the job level and resume project claims.
        "
  else
  "
        You are the secondary, skeptical grading agent. Your job is to **CRITICALLY REVIEW** the Initial Scorer's findings below.
        1. **Initial Score:** " +:+
  initial_score_json +:+
  " 
        2. **Action:** Challenge the initial score if you find bias, missing context, or flawed logic. **Specifically, assess if the Initial Scorer was strict enough on vagueness and generalities.**
        " +:+
  vague_penalty_instruction +:+
  "
        3. **Final Task:** Provide your final, independent score and justification using the schema. Your score should only agree if the Initial Scorer's logic is perfect.
        
        CRITICAL RULE: While you must critique weaknesses, your final recommendation should reflect the overall Consensus Score's passing threshold.
        ".

(** The system message of [get_grading_chain(agent_role)] once
    [format_messages] has filled its placeholders. *)
Definition grader_instruction (agent_role job_level_ initial_score_json : string)
  : string :=
  "
    --- AGENT ROLE: " +:+
  agent_role +:+
  " ---
    " +:+
  debate_prompt agent_role initial_score_json +:+
  "
    
    Your final analysis must consider:
    - Technical Depth (compared to the " +:+
  job_level_ +:+
  " target).
    - Mental Aptitude (problem-solving approach, self-awareness, handling uncertainty).
    - Communication (clarity, confidence, professionalism).

    --- CRITICAL FORMATTING RULE ---
    The lists for 'strengths' and 'weaknesses' MUST contain only **simple strings**, one for each point. 
    DO NOT use nested lists (e.g., [['point 1']]), markdown bullet points, or numbering within the JSON strings.
    
    GENERATE A JSON OBJECT STRICTLY FOLLOWING THE PYTHON SCHEMA. Do not include any text, prose, or conversation outside the JSON.
    ".

(** The five context messages that open [rating_messages]. *)
Definition rating_header (job_level_ : string) (context : ContextDict)
  : list Message :=
  [ HumanMessage "--- JOB AND CANDIDATE CONTEXT ---";
    HumanMessage ("Job Level: " +:+ job_level_);
    HumanMessage ("Job Description: " +:+ default "N/A" (cd_job_description context));
    HumanMessage ("Candidate Resume: " +:+ default "N/A" (cd_resume_content context));
    HumanMessage "--- CONVERSATION TRANSCRIPT ---" ].

(** The loop over [transcript_data]: a human or ai record is appended as a
    message, any other record is passed over. *)
Definition append_transcript (rating_messages : list Message)
    (transcript_data : list Entry) : list Message :=
  fold_left
    (fun (rating_messages : list Message) msg =>
       if String.eqb (etype msg) "human"
       then (rating_messages ++ [HumanMessage (content msg)])%list
       else if String.eqb (etype msg) "ai"
            then (rating_messages ++ [AIMessage (content msg)])%list
            else rating_messages)
    transcript_data rating_messages.

(** [round(total / 2)]: the quotient is a float that is exact for totals up
    to 2^53 in size, and [round] sends a half to the even neighbour. *)
Definition round_half (total : Z) : Z :=
  let q := (total / 2)%Z in
  if Z.even total then q else if Z.even q then q else (q + 1)%Z.

(** The recommendation computed from the consensus score, which replaces
    the one the challenger gave. *)
Definition final_recommendation_for (challenger_recommendation : string)
    (avg_score : Z) : string :=
  let final_recommendation := challenger_recommendation in
  if (avg_score >=? PASSING_THRESHOLD)%Z then "Strong Hire (Exceeded Threshold)"
  else if (avg_score >=? 55)%Z then "Proceed with Caution (Meets Potential)"
  else "No Hire (Fails Minimum Criteria)".

Section Evaluate.

(** [InterviewRating.model_dump_json], the serializer of the schema
    library. *)
Variable model_dump_json : InterviewRating -> string.

(** [evaluate_candidate]: [None] for a missing or empty context; otherwise
    the two agents are run one after the other, the consensus report is
    written to [EVALUATION_FILE] and returned.  A missing transcript, a
    failing chain and a failing write raise. *)
Definition evaluate_candidate (context : option ContextDict) (w : World)
  : Outcome (option InterviewRating) * World :=
  match context with
  | None => (Returned None, w)
  | Some context =>
      if is_empty_dict context then (Returned None, w)
      else
        let job_level_ := default "General" (cd_job_level context) in
        match cd_transcript context with
        | None => (Raised (mkExn false "'transcript'"), w)
        | Some transcript_data =>
            let rating_messages :=
              (append_transcript (rating_header job_level_ context) transcript_data
               ++ [HumanMessage "--- END TRANSCRIPT ---"])%list in
            let agent_1_messages :=
              SystemMessage (grader_instruction "Initial Scorer" job_level_ "")
                :: rating_messages in
            let '(first, w) := chain_invoke agent_1_messages w in
            match first with
            | Raised e => (Raised e, w)
            | Returned initial_rating_obj =>
                let initial_score_json := model_dump_json initial_rating_obj in
                let agent_2_messages :=
                  SystemMessage (grader_instruction "Challenger Grader" job_level_
                                                    initial_score_json)
                    :: rating_messages in
                let '(second, w) := chain_invoke agent_2_messages w in
                match second with
                | Raised e => (Raised e, w)
                | Returned final_rating_obj =>
                    let avg_score :=
                      round_half (overall_score initial_rating_obj
                                  + overall_score final_rating_obj) in
                    let final_recommendation :=
                      final_recommendation_for
                        (hiring_recommendation final_rating_obj) avg_score in
                    let final_report :=
                      mkRating avg_score (strengths final_rating_obj)
                               (weaknesses final_rating_obj) final_recommendation in
                    let '(failure, w) := write_report final_report w in
                    match failure with
                    | Some e => (Raised e, w)
                    | None => (Returned (Some final_report), w)
                    end
                end
            end
        end
  end.

(** What the grading endpoint answers. *)
Inductive GradeResponse :=
| GradingComplete (evaluation : option InterviewRating)
| GradeHTTPException (status_code : Z) (detail : string).

(** [grade_transcript] of api.py; the request model makes
    [transcript_context] a dict. *)
Definition grade_transcript (transcript_context : ContextDict) (w : World)
  : GradeResponse * World :=
  let '(result, w) := evaluate_candidate (Some transcript_context) w in
  match result with
  | Returned evaluation_result => (GradingComplete evaluation_result, w)
  | Raised e =>
      if is_not_implemented e then
        (GradeHTTPException 501
           "Grading feature is not implemented (Part3/grader.py not found).", w)
      else
        (GradeHTTPException 500
           ("Internal server error during grading: " +:+ exn_text e), w)
  end.

End Evaluate.

(** The transcript part of the messages handed to both agents. *)
Definition transcript_messages (transcript : list Entry) : list Message :=
  append_transcript [] transcript.

(** The messages both agents are given after their own system message. *)
Definition rating_messages_of (context : ContextDict)
    (transcript_data : list Entry) : list Message :=
  (rating_header (default "General" (cd_job_level context)) context
   ++ transcript_messages transcript_data
   ++ [HumanMessage "--- END TRANSCRIPT ---"])%list.

(** The recommendation as a function of the sum of the two scores. *)
Definition recommendation_of_sum (total : Z) : string :=
  if (139 <=? total)%Z then "Strong Hire (Exceeded Threshold)"
  else if (110 <=? total)%Z then "Proceed with Caution (Meets Potential)"
  else "No Hire (Fails Minimum Criteria)".

(** The three recommendations in order of merit. *)
Definition merit (recommendation : string) : Z :=
  if String.eqb recommendation "Strong Hire (Exceeded Threshold)" then 2
  else if String.eqb recommendation "Proceed with Caution (Meets Potential)" then 1
  else 0.

End Grader.

(** ** Part1/job_parser.py: the job level *)

Module JobParser.

(** [c.lower()] on the code points below 256: the capital letters A to Z
    and the accented capitals (192 to 222, the multiplication sign 215
    apart) are moved 32 places up. *)
Definition lower_char (c : ascii) : ascii :=
  let n := nat_of_ascii c in
  if ((65 <=? n) && (n <=? 90) || (192 <=? n) && (n <=? 214)
      || (216 <=? n) && (n <=? 222))%nat
  then ascii_of_nat (n + 32)
  else c.

(** [s.lower()] *)
Fixpoint lower (s : string) : string :=
  match s with
  | EmptyString => EmptyString
  | String c s' => String (lower_char c) (lower s')
  end.

Definition internship_keywords : list string :=
  ["internship"; "intern"; "entry level"; "internship program"].
Definition associate_keywords : list string :=
  ["associate"; "assistant"; "trainee"].
Definition junior_keywords : list string :=
  ["junior"; "jr"; "1-2 years"; "1 to 2 years"; "entry"; "beginner"].
Definition mid_level_keywords : list string :=
  ["mid-level"; "mid level"; "3-5 years"; "3 to 5 years"; "intermediate"].
Definition senior_keywords : list string :=
  ["senior"; "sr"; "lead"; "6+ years"; "6 years"; "7 years"; "8 years";
   "9 years"; "10 years"].
Definition expert_keywords : list string :=
  ["expert"; "principal"; "staff"; "architect"; "fellow"; "10+ years"].

(** A loop [for keyword in keywords: if keyword in text: return ...] finds
    a keyword. *)
Definition keyword_in (keywords : list string) (text : string) : bool :=
  existsb (fun keyword => contains keyword text) keywords.

(** [determine_job_level] *)
Definition determine_job_level (job_title experience_required : string) : string :=
  let combined_text := lower (job_title +:+ " " +:+ experience_required) in
  if keyword_in internship_keywords combined_text then "Internship"
  else if keyword_in associate_keywords combined_text then "Associate"
  else if keyword_in junior_keywords combined_text then "Junior"
  else if keyword_in mid_level_keywords combined_text then "Junior"
  else if keyword_in senior_keywords combined_text then "Senior"
  else if keyword_in expert_keywords combined_text then "Expert"
  else if contains "junior" (lower job_title) then "Junior"
  else "Not specified".

End JobParser.

(** ** Grading examples *)

(** A grading world whose chains give the listed outcomes in order (and
    fail once the list is used up) and whose report file can always be
    written. *)
Definition grader_scripted
    (outcomes : list (Grader.Outcome Grader.InterviewRating)) : Grader.World :=
  Grader.mkWorld
    (fun n => nth n outcomes
                  (Grader.Raised (Grader.mkExn false "script exhausted")))
    [] (fun _ => None) O [].

(** A stand-in for the serializer of ratings: it prints the score. *)
Definition dump_score (r : Grader.InterviewRating) : string :=
  str_of_int (Grader.overall_score r).

(** A lenient first rating and a strict second one. *)
Definition lenient_rating : Grader.InterviewRating :=
  Grader.mkRating 90 ["curious"] ["vague on details"] "Strong Hire".
Definition strict_rating : Grader.InterviewRating :=
  Grader.mkRating 49 ["honest"] ["shallow answers"] "No Hire".

(** The context dict of the session just started for Ada. *)
Definition ada_context : Grader.ContextDict :=
  Grader.context_dict_of (fst (get_context_for_grading ada (scripted []))).

(** The empty dict. *)
Definition empty_context : Grader.ContextDict :=
  Grader.mkContextDict None None None None false.

(** ** Basic facts *)

Lemma invoke_llm_eq self guide env :
  _invoke_llm_for_response self guide env
  = (generated_text (next_outcome env), after_call (prompt_for self guide) env).
Proof.
  unfold _invoke_llm_for_response, llm_invoke, next_outcome, after_call, prompt_for.
  destruct (llm_script env (List.length (llm_calls env))); reflexivity.
Qed.

Lemma next_outcome_after_call messages env :
  next_outcome (after_call messages env) = second_outcome env.
Proof.
  unfold next_outcome, second_outcome, after_call; simpl.
  rewrite length_app; simpl. f_equal. lia.
Qed.

Lemma geb_false_lt a b : (a >=? b)%Z = false -> (a < b)%Z.
Proof. rewrite Z.geb_leb. intros H. apply Z.leb_gt in H. exact H. Qed.

Lemma geb_true_ge a b : (a >=? b)%Z = true -> (b <= a)%Z.
Proof. rewrite Z.geb_leb. intros H. apply Z.leb_le in H. exact H. Qed.

Lemma gtb_true_gt a b : (a >? b)%Z = true -> (b < a)%Z.
Proof. rewrite Z.gtb_ltb. intros H. apply Z.ltb_lt in H. exact H. Qed.

Lemma gtb_false_le a b : (a >? b)%Z = false -> (a <= b)%Z.
Proof. rewrite Z.gtb_ltb. intros H. apply Z.ltb_ge in H. exact H. Qed.

(** The error text is never the warning tag and never starts with a
    clarification preamble: it starts with a bracket. *)
Lemma error_message_not_warning e :
  String.eqb (llm_error_message e) WARNING_TAG = false.
Proof. reflexivity. Qed.

Lemma error_message_not_repetition e :
  any_startswith (llm_error_message e) REPETITION_PHRASES = false.
Proof. reflexivity. Qed.

(** ** Proof automation for one turn *)

Arguments any_startswith : simpl never.
Arguments contains : simpl never.
Arguments strip : simpl never.
Arguments replace : simpl never.
Arguments generated_text : simpl never.
Arguments next_outcome : simpl never.
Arguments second_outcome : simpl never.
Arguments action_guide : simpl never.
Arguments prompt_for : simpl never.
Arguments after_call : simpl never.
Arguments String.eqb : simpl never.

Lemma llm_calls_after_call messages env :
  llm_calls (after_call messages env) = (llm_calls env ++ [messages])%list.
Proof. reflexivity. Qed.

Ltac open_turn :=
  unfold reply_of, flag_of, bot_of, env_of, heard,
         process_turn, _continue_soft_close, _initiate_soft_close,
         _handle_protocol_response, _handle_sentinel, advance_counters;
  rewrite ?invoke_llm_eq.

Ltac split_branches :=
  repeat match goal with
         | |- context [if negb ?c then _ else _] => destruct c eqn:?; simpl
         | |- context [if ?c then _ else _] => destruct c eqn:?; simpl
         | |- context [let '(_, _) := ?x in _] => destruct x eqn:?; simpl
         end.

Ltac all_paths :=
  open_turn; simpl; split_branches;
  rewrite ?invoke_llm_eq; simpl; split_branches; simpl;
  rewrite ?next_outcome_after_call in *.

Ltac z_facts :=
  repeat match goal with
         | H : (_ >=? _)%Z = true |- _ => apply geb_true_ge in H
         | H : (_ >=? _)%Z = false |- _ => apply geb_false_lt in H
         | H : (_ >? _)%Z = true |- _ => apply gtb_true_gt in H
         | H : (_ >? _)%Z = false |- _ => apply gtb_false_le in H
         | H : (_ =? _)%Z = true |- _ => apply Z.eqb_eq in H
         | H : (_ =? _)%Z = false |- _ => apply Z.eqb_neq in H
         | H : (_ <? _)%Z = true |- _ => apply Z.ltb_lt in H
         | H : (_ <? _)%Z = false |- _ => apply Z.ltb_ge in H
         end;
  unfold MAX_WARNINGS, MAX_PRIMARY_QUESTIONS, MAX_ELABORATIONS in *.

(** ** Transcript order *)

(** C7. Every call of [process_turn] extends the transcript it was given:
    the old entries stay in place, the candidate's reply comes next as a
    [human] entry, and whatever else the turn records (on the soft-close
    paths, on a warning, on termination) comes after it and is an [ai] or a
    [PROTOCOL] entry. *)
Theorem process_turn_appends_human_first self candidate_reply env :
  exists rest,
    transcript_history (bot_of (process_turn self candidate_reply env))
    = (transcript_history self ++ mkEntry "human" candidate_reply :: rest)%list
    /\ Forall bot_side rest.
Proof.
  all_paths.
  all: rewrite <- ?app_assoc; simpl; eexists; (split; [reflexivity|]).
  all: repeat (apply Forall_cons; split;
               [first [left; reflexivity | right; reflexivity]|]).
  all: apply Forall_nil; exact I.
Qed.

(** ** Pacing *)

(** C5. A turn whose reply starts with one of the clarification preambles
    leaves [primary_question_count] and [elaboration_count] as they were. *)
Theorem clarification_keeps_counters self candidate_reply env :
  any_startswith (reply_of (process_turn self candidate_reply env))
                 REPETITION_PHRASES = true ->
  primary_question_count (bot_of (process_turn self candidate_reply env))
  = primary_question_count self
  /\ elaboration_count (bot_of (process_turn self candidate_reply env))
     = elaboration_count self.
Proof.
  all_paths; intros Hrep; try (split; reflexivity).
  all: simpl in Hrep; congruence.
Qed.

Lemma clarification_keeps_counters_witness :
  any_startswith
    (reply_of (process_turn ada "Sorry, could you repeat that?"
       (scripted [PyReturn "Let me clarify that point for you: what is a monad?"])))
    REPETITION_PHRASES = true
  /\ primary_question_count
       (bot_of (process_turn ada "Sorry, could you repeat that?"
          (scripted [PyReturn "Let me clarify that point for you: what is a monad?"])))
     = 0%Z.
Proof.
  split; [vm_compute; reflexivity|].
  apply (clarification_keeps_counters ada "Sorry, could you repeat that?"
           (scripted [PyReturn "Let me clarify that point for you: what is a monad?"])).
  vm_compute; reflexivity.
Defined.

Lemma lookup_after_prefix {A} (l : list A) (x : A) (l2 : list A) :
  ((l ++ [x]) ++ l2)%list !! List.length l = Some x.
Proof. rewrite <- app_assoc. simpl. apply list_lookup_middle. reflexivity. Qed.

Lemma lookup_after_last {A} (l : list A) (x : A) :
  (l ++ [x])%list !! List.length l = Some x.
Proof. apply list_lookup_middle. reflexivity. Qed.

(** C4. On a turn that is neither a soft-close turn nor overridden by the
    cap on primary questions, the model is first called with the guide that
    the pacing policy of the specification selects (FIRST_TOPIC when
    [primary_question_count] is 0, ASK_FOLLOW_UP when [elaboration_count] is
    below [MAX_ELABORATIONS], PIVOT_NEW_TOPIC otherwise); and when the
    session is not finished after the turn and the reply is not a
    clarification reply, the two counters are updated by the rule of the
    specification for that guide. *)
Theorem pacing_policy_followed self candidate_reply env :
  is_in_soft_close self = false ->
  (primary_question_count self < MAX_PRIMARY_QUESTIONS)%Z ->
  let g := spec_pacing_policy (primary_question_count self)
                              (elaboration_count self) MAX_ELABORATIONS in
  let r := process_turn self candidate_reply env in
  llm_calls (env_of r) !! List.length (llm_calls env)
  = Some (prompt_for (heard self candidate_reply) (guide_text g self))
  /\ (is_finished (bot_of r) = false ->
      any_startswith (reply_of r) REPETITION_PHRASES = false ->
      (primary_question_count (bot_of r), elaboration_count (bot_of r))
      = spec_counter_update g (primary_question_count self, elaboration_count self)).
Proof.
  intros Hsoft Hcap g r. subst g r.
  assert (Hguide : action_guide (heard self candidate_reply)
                   = guide_text (spec_pacing_policy (primary_question_count self)
                                   (elaboration_count self) MAX_ELABORATIONS) self).
  { unfold action_guide, spec_pacing_policy, heard. simpl.
    destruct (primary_question_count self =? 0)%Z; [reflexivity|].
    destruct (elaboration_count self <? MAX_ELABORATIONS)%Z; reflexivity. }
  unfold heard in Hguide. rewrite <- Hguide. clear Hguide.
  unfold spec_pacing_policy, spec_counter_update.
  all_paths.
  all: try discriminate.
  all: try (exfalso; z_facts; lia).
  all: rewrite ?llm_calls_after_call.
  all: split; [first [apply lookup_after_last | apply lookup_after_prefix]|].
  all: intros Hfin Hrep; simpl in *; try congruence.
  all: z_facts; try lia.
  all: split_branches; z_facts; try lia; try reflexivity.
Qed.

Lemma pacing_policy_followed_witness :
  is_in_soft_close ada = false
  /\ (primary_question_count ada < MAX_PRIMARY_QUESTIONS)%Z
  /\ (primary_question_count
        (bot_of (process_turn ada "I am fine, thanks."
                   (scripted [PyReturn "Good. Tell me about your last project."]))),
      elaboration_count
        (bot_of (process_turn ada "I am fine, thanks."
                   (scripted [PyReturn "Good. Tell me about your last project."]))))
     = (1, 0)%Z.
Proof.
  assert (Hsoft : is_in_soft_close ada = false) by reflexivity.
  assert (Hcap : (primary_question_count ada < MAX_PRIMARY_QUESTIONS)%Z)
    by (vm_compute; reflexivity).
  split; [exact Hsoft|]. split; [exact Hcap|].
  destruct (pacing_policy_followed ada "I am fine, thanks."
              (scripted [PyReturn "Good. Tell me about your last project."])
              Hsoft Hcap) as [_ Hupd].
  rewrite Hupd; vm_compute; reflexivity.
Defined.

(** ** Counter bounds *)



Lemma converse_reachable replies : forall self env,
  reachable self -> reachable (fst (converse replies (self, env))).
Proof.
  induction replies as [|reply replies IH]; intros self env Hr; [exact Hr|].
  simpl. apply IH. apply reach_turn. exact Hr.
Qed.

Lemma converse_live_reachable replies : forall self env,
  live_reachable self ->
  all_open replies (self, env) = true ->
  live_reachable (fst (converse replies (self, env))).
Proof.
  induction replies as [|reply replies IH]; intros self env Hr Hopen; [exact Hr|].
  simpl in Hopen. apply andb_true_iff in Hopen as [Hlive Hrest].
  apply negb_true_iff in Hlive.
  change (converse (reply :: replies) (self, env))
    with (converse replies (bot_of (process_turn self reply env),
                            env_of (process_turn self reply env))).
  apply IH; [|exact Hrest]. apply live_turn; assumption.
Qed.

Lemma ada_live_reachable : live_reachable ada.
Proof. unfold ada, start_interview_logic. apply live_init, live_new. Qed.

Lemma ada_reachable : reachable ada.
Proof. unfold ada, start_interview_logic. apply reach_init, reach_new. Qed.




(** ** Finished sessions *)



Lemma chat_interview_logic_eq bot candidate_reply env :
  chat_interview_logic bot candidate_reply env
  = let r := process_turn bot candidate_reply env in
    if flag_of r
    then ((reply_of r, true,
           Some (fst (get_context_for_grading (bot_of r) (env_of r)))),
          bot_of r, snd (get_context_for_grading (bot_of r) (env_of r)))
    else ((reply_of r, false, None), bot_of r, env_of r).
Proof.
  unfold chat_interview_logic, chat_interview_logic_with, process_turn_method,
         reply_of, flag_of, bot_of, env_of.
  destruct (process_turn bot candidate_reply env) as [[[reply flag] bot'] env'].
  simpl. destruct flag; [|reflexivity].
  destruct (get_context_for_grading bot' env'); reflexivity.
Qed.

Arguments get_context_for_grading : simpl never.






(** ** The grading context *)

(** C9, as stated, fails: [get_context_for_grading] has no test of
    [is_finished].  Called on a session that has only been greeted it
    returns a context holding the one-entry transcript. *)
Lemma grading_context_of_unfinished_session :
  is_finished ada = false
  /\ fst (get_context_for_grading ada (scripted []))
     = mkContext 0 "General" "Ada" "{}" "{}"
         [mkEntry "ai" "Hello Ada, thank you for joining me today. We have a short time, so let's jump right into the technical discussion. How are you doing?"].
Proof. vm_compute. split; reflexivity. Qed.

(** What a turn never touches: the four context strings and the clock. *)
Lemma process_turn_frame self candidate_reply env :
  job_level (bot_of (process_turn self candidate_reply env)) = job_level self
  /\ candidate_name (bot_of (process_turn self candidate_reply env))
     = candidate_name self
  /\ job_description (bot_of (process_turn self candidate_reply env))
     = job_description self
  /\ resume_content (bot_of (process_turn self candidate_reply env))
     = resume_content self
  /\ now (env_of (process_turn self candidate_reply env)) = now env.
Proof. all_paths; repeat split; reflexivity. Qed.

Lemma flag_implies_finished self candidate_reply env :
  flag_of (process_turn self candidate_reply env) = true ->
  is_finished (bot_of (process_turn self candidate_reply env)) = true.
Proof. all_paths; intros; congruence. Qed.

(** C9, amended. [get_context_for_grading] accepts every session, finished
    or not, whether or not the file can be written: it returns the clock
    reading, the four context strings and the transcript as it stands.  Its
    caller [chat_interview_logic] calls it exactly on the turns whose flag
    is set.  When [process_turn] returns, the flag is only set on a session
    that is finished after the turn, so the context is built from the
    transcript of a finished session.  When [process_turn] raises, the
    adapter sets the flag itself and builds the context from the session as
    the failed call left it, finished or not: there the context can hold a
    partial transcript. *)
Theorem grading_context_is_unguarded self env :
  fst (get_context_for_grading self env)
  = mkContext (now env) (job_level self) (candidate_name self)
              (job_description self) (resume_content self)
              (transcript_history self)
  /\ (forall candidate_reply,
       chat_context (chat_interview_logic self candidate_reply env)
       = if chat_flag (chat_interview_logic self candidate_reply env)
         then Some (mkContext (now env) (job_level self) (candidate_name self)
                      (job_description self) (resume_content self)
                      (transcript_history
                         (bot_of (chat_interview_logic self candidate_reply env))))
         else None)
  /\ (forall candidate_reply,
       chat_flag (chat_interview_logic self candidate_reply env) = true ->
       is_finished (bot_of (chat_interview_logic self candidate_reply env)) = true)
  /\ (forall (turn : TurnMethod) candidate_reply e,
       fst (fst (turn self candidate_reply env)) = PyRaise e ->
       chat_flag (chat_interview_logic_with turn self candidate_reply env) = true
       /\ bot_of (chat_interview_logic_with turn self candidate_reply env)
          = snd (fst (turn self candidate_reply env))
       /\ chat_context (chat_interview_logic_with turn self candidate_reply env)
          = Some (fst (get_context_for_grading
                         (snd (fst (turn self candidate_reply env)))
                         (snd (turn self candidate_reply env)))))
  /\ (exists (turn : TurnMethod) unfinished candidate_reply,
       is_finished
         (bot_of (chat_interview_logic_with turn unfinished candidate_reply env))
       = false
       /\ chat_context
            (chat_interview_logic_with turn unfinished candidate_reply env)
          = Some (mkContext (now env) (job_level unfinished)
                    (candidate_name unfinished) (job_description unfinished)
                    (resume_content unfinished) (transcript_history unfinished))).
Proof.
  split; [reflexivity|]. split; [|split; [|split]].
  - intros candidate_reply.
    rewrite chat_interview_logic_eq.
    destruct (process_turn_frame self candidate_reply env)
      as (Hl & Hn & Hj & Hr & Hnow).
    unfold chat_context, chat_flag.
    destruct (flag_of (process_turn self candidate_reply env)); simpl; [|reflexivity].
    unfold get_context_for_grading; simpl. unfold bot_of at 6; simpl.
    rewrite Hl, Hn, Hj, Hr, Hnow. reflexivity.
  - intros candidate_reply. rewrite chat_interview_logic_eq.
    pose proof (flag_implies_finished self candidate_reply env) as Hfin.
    unfold chat_flag. cbv zeta.
    destruct (flag_of (process_turn self candidate_reply env)); simpl;
      [|discriminate].
    intros _. exact (Hfin eq_refl).
  - intros turn candidate_reply e Hraise.
    unfold chat_interview_logic_with, chat_flag, chat_context, bot_of.
    destruct (turn self candidate_reply env) as [[outcome bot'] env'].
    simpl in Hraise. subst outcome. simpl.
    unfold get_context_for_grading, write_transcript_file. simpl.
    repeat split; reflexivity.
  - exists failing_turn, ada, "hello". split; reflexivity.
Qed.

Lemma grading_context_is_unguarded_witness :
  fst (fst (failing_turn (fst warned_session) "and then?" (snd warned_session)))
  = PyRaise "connection reset"
  /\ is_finished (fst warned_session) = false
  /\ chat_flag (chat_interview_logic_with failing_turn (fst warned_session)
                  "and then?" (snd warned_session)) = true
  /\ bot_of (chat_interview_logic_with failing_turn (fst warned_session)
               "and then?" (snd warned_session))
     = snd (fst (failing_turn (fst warned_session) "and then?"
                   (snd warned_session))).
Proof.
  assert (Hraise : fst (fst (failing_turn (fst warned_session) "and then?"
                               (snd warned_session)))
                   = PyRaise "connection reset")
    by (unfold failing_turn; reflexivity).
  assert (Hopen : is_finished (fst warned_session) = false)
    by (vm_compute; reflexivity).
  split; [exact Hraise|]. split; [exact Hopen|].
  pose proof (proj1 (proj2 (proj2 (proj2
                (grading_context_is_unguarded (fst warned_session)
                   (snd warned_session)))))
                failing_turn "and then?" "connection reset" Hraise)
    as Hexcept.
  split; [exact (proj1 Hexcept) | exact (proj1 (proj2 Hexcept))].
Defined.

(** ** The adapter never raises *)

(** C10. Whatever the call of [process_turn] does, [chat_interview_logic]
    returns a triple.  If the call raises, the reply is the text
    "Internal chat processing failure: " followed by the exception and the
    flag is set; if it returns, its reply and flag are passed on.  When the
    flag is set, on either path, the context is present and holds the
    transcript of the instance as the call left it; when it is not set the
    context is [None]. *)
Theorem chat_interview_logic_always_answers
    (turn : TurnMethod) self candidate_reply env :
  (forall e,
      fst (fst (turn self candidate_reply env)) = PyRaise e ->
      chat_reply (chat_interview_logic_with turn self candidate_reply env)
      = "Internal chat processing failure: " +:+ e
      /\ chat_flag (chat_interview_logic_with turn self candidate_reply env) = true)
  /\ (forall reply flag,
      fst (fst (turn self candidate_reply env)) = PyReturn (reply, flag) ->
      chat_reply (chat_interview_logic_with turn self candidate_reply env) = reply
      /\ chat_flag (chat_interview_logic_with turn self candidate_reply env) = flag)
  /\ (chat_flag (chat_interview_logic_with turn self candidate_reply env) = true ->
      exists ctx,
        chat_context (chat_interview_logic_with turn self candidate_reply env)
        = Some ctx
        /\ ctx_transcript ctx
           = transcript_history (snd (fst (turn self candidate_reply env))))
  /\ (chat_flag (chat_interview_logic_with turn self candidate_reply env) = false ->
      chat_context (chat_interview_logic_with turn self candidate_reply env) = None).
Proof.
  unfold chat_interview_logic_with, chat_reply, chat_flag, chat_context,
         get_context_for_grading, write_transcript_file.
  destruct (turn self candidate_reply env) as [[outcome bot'] env']; simpl.
  destruct outcome as [[reply flag] | e]; [destruct flag|]; simpl.
  all: repeat split; intros; simplify_eq; try reflexivity.
  all: eexists; split; reflexivity.
Qed.

Lemma chat_interview_logic_always_answers_witness :
  fst (fst (failing_turn ada "hello" (scripted []))) = PyRaise "connection reset"
  /\ chat_reply (chat_interview_logic_with failing_turn ada "hello" (scripted []))
     = "Internal chat processing failure: connection reset"
  /\ chat_flag (chat_interview_logic_with failing_turn ada "hello" (scripted []))
     = true.
Proof.
  split; [reflexivity|].
  exact (proj1 (chat_interview_logic_always_answers
                  failing_turn ada "hello" (scripted []))
           "connection reset" eq_refl).
Defined.

(** ** A failing model call *)

(** C1, as stated, fails: when the model call raises on the first turn of a
    session, the error text comes back as the reply with the flag unset, the
    session stays open and the turn counts as the first primary question. *)
Lemma llm_failure_leaves_session_open :
  next_outcome (scripted [PyRaise "request timed out"])
  = PyRaise "request timed out"
  /\ reply_of (process_turn ada "I am fine, thanks."
                 (scripted [PyRaise "request timed out"]))
     = "[LLM_ERROR] The AI model failed to respond: request timed out"
  /\ flag_of (process_turn ada "I am fine, thanks."
                (scripted [PyRaise "request timed out"])) = false
  /\ is_finished (bot_of (process_turn ada "I am fine, thanks."
                            (scripted [PyRaise "request timed out"]))) = false
  /\ primary_question_count ada = 0%Z
  /\ primary_question_count
       (bot_of (process_turn ada "I am fine, thanks."
                  (scripted [PyRaise "request timed out"]))) = 1%Z.
Proof. vm_compute. repeat split; reflexivity. Qed.

(** C1, amended. When a model call of a turn raises (the first call of the
    turn, or the second call that asks the model to restate its question
    after a first warning), the exception is caught inside
    [_invoke_llm_for_response] and its text, prefixed with
    "[LLM_ERROR] The AI model failed to respond: ", is handled like any
    generated reply.  Provided that text does not contain the sentinel
    phrase: it is the reply returned and an [ai] entry of the transcript;
    [is_finished] is left as it was, so a session that was open stays open
    and the flag returned is false; and on a turn of an open session that is
    neither a soft-close turn nor overridden by the cap on primary
    questions, the pacing counters advance by the rule for the guide in
    force. *)
Theorem llm_error_becomes_the_reply self candidate_reply env e :
  next_outcome env = PyRaise e
  \/ (restates_question self env = true /\ second_outcome env = PyRaise e) ->
  contains SENTINEL_END_PHRASE (llm_error_message e) = false ->
  reply_of (process_turn self candidate_reply env) = llm_error_message e
  /\ In (mkEntry "ai" (llm_error_message e))
        (transcript_history (bot_of (process_turn self candidate_reply env)))
  /\ is_finished (bot_of (process_turn self candidate_reply env)) = is_finished self
  /\ (is_finished self = false ->
      flag_of (process_turn self candidate_reply env) = false)
  /\ (is_finished self = false ->
      is_in_soft_close self = false ->
      (primary_question_count self < MAX_PRIMARY_QUESTIONS)%Z ->
      (primary_question_count (bot_of (process_turn self candidate_reply env)),
       elaboration_count (bot_of (process_turn self candidate_reply env)))
      = spec_counter_update
          (spec_pacing_policy (primary_question_count self)
                              (elaboration_count self) MAX_ELABORATIONS)
          (primary_question_count self, elaboration_count self)).
Proof.
  intros [Hraise | [Hrestate Hraise]] Hclean.
  - assert (Htext : generated_text (next_outcome env) = llm_error_message e)
      by (rewrite Hraise; reflexivity).
    unfold spec_pacing_policy, spec_counter_update.
    open_turn. simpl. rewrite ?invoke_llm_eq. rewrite !Htext.
    rewrite error_message_not_warning, Hclean, error_message_not_repetition.
    simpl. split_branches.
    all: repeat split; try reflexivity; try congruence.
    all: try (rewrite ?in_app_iff; simpl; tauto).
    all: intros; z_facts; try lia; try congruence.
  - unfold restates_question in Hrestate.
    apply andb_true_iff in Hrestate as [Hrestate Hwarn].
    apply andb_true_iff in Hrestate as [Hrestate Htag].
    apply andb_true_iff in Hrestate as [Hsoft Hcap].
    apply negb_true_iff in Hsoft, Hcap, Hwarn.
    assert (Htext : generated_text (second_outcome env) = llm_error_message e)
      by (rewrite Hraise; reflexivity).
    unfold spec_pacing_policy, spec_counter_update.
    open_turn. simpl. rewrite Hsoft, Hcap, ?invoke_llm_eq, Htag. simpl.
    rewrite Hwarn, ?invoke_llm_eq. simpl.
    rewrite next_outcome_after_call, !Htext, Hclean. simpl.
    rewrite ?error_message_not_repetition. simpl. split_branches.
    all: repeat split; try reflexivity; try congruence.
    all: try (rewrite ?in_app_iff; simpl; tauto).
    all: intros; z_facts; try lia; try congruence.
Qed.

Lemma llm_error_becomes_the_reply_witness :
  (restates_question ada failed_restatement = true
   /\ second_outcome failed_restatement = PyRaise "request timed out")
  /\ contains SENTINEL_END_PHRASE (llm_error_message "request timed out") = false
  /\ reply_of (process_turn ada "whatever" failed_restatement)
     = llm_error_message "request timed out"
  /\ is_finished (bot_of (process_turn ada "whatever" failed_restatement))
     = is_finished ada
  /\ reply_of (process_turn ada "I am fine, thanks."
                 (scripted [PyRaise "request timed out"]))
     = llm_error_message "request timed out".
Proof.
  assert (Hsecond : restates_question ada failed_restatement = true
                    /\ second_outcome failed_restatement
                       = PyRaise "request timed out")
    by (split; vm_compute; reflexivity).
  assert (Hclean : contains SENTINEL_END_PHRASE
                     (llm_error_message "request timed out") = false)
    by (vm_compute; reflexivity).
  split; [exact Hsecond|]. split; [exact Hclean|].
  pose proof (llm_error_becomes_the_reply ada "whatever" failed_restatement
                "request timed out" (or_intror Hsecond) Hclean) as Hrestated.
  split; [exact (proj1 Hrestated)|].
  split; [exact (proj1 (proj2 (proj2 Hrestated)))|].
  exact (proj1 (llm_error_becomes_the_reply ada "I am fine, thanks."
                  (scripted [PyRaise "request timed out"]) "request timed out"
                  (or_introl eq_refl) Hclean)).
Defined.

(** ** Misconduct *)




(** ** The sentinel phrase *)

(** Where the sentinel is looked for, it does finish the session: on an
    ordinary turn whose reply is not the warning tag, and on a soft-close
    continuation. *)
Lemma sentinel_finishes_where_tested self candidate_reply env :
  contains SENTINEL_END_PHRASE (generated_text (next_outcome env)) = true ->
  is_in_soft_close self = true
  \/ (primary_question_count self < MAX_PRIMARY_QUESTIONS)%Z ->
  is_finished (bot_of (process_turn self candidate_reply env)) = true
  /\ flag_of (process_turn self candidate_reply env) = true
  /\ reply_of (process_turn self candidate_reply env)
     = strip (replace (generated_text (next_outcome env)) SENTINEL_END_PHRASE "").
Proof.
  intros Hsent Hpath.
  assert (Hnot : String.eqb (generated_text (next_outcome env)) WARNING_TAG = false).
  { destruct (String.eqb_spec (generated_text (next_outcome env)) WARNING_TAG)
      as [E|E]; [|reflexivity].
    rewrite E in Hsent. vm_compute in Hsent. discriminate. }
  open_turn. simpl. rewrite ?invoke_llm_eq. rewrite ?Hnot, ?Hsent. simpl.
  destruct (is_in_soft_close self) eqn:Hsoft; simpl.
  - rewrite ?Hsent. repeat split; reflexivity.
  - destruct Hpath as [Hc|Hc]; [discriminate|].
    destruct (primary_question_count self >=? MAX_PRIMARY_QUESTIONS)%Z eqn:Hge;
      [exfalso; z_facts; lia|].
    rewrite ?invoke_llm_eq, ?Hnot, ?Hsent. simpl. repeat split; reflexivity.
Qed.

(** C2 fails on the turn that opens the soft close: [_initiate_soft_close]
    does not look for the sentinel, unlike the two other paths.  After five
    primary questions, a wrap-up reply that carries the sentinel is returned
    to the candidate as it is, sentinel included, and the session is left
    open. *)
Lemma soft_close_initiation_shows_sentinel :
  primary_question_count
    (fst (five_topics
            (PyReturn "Do you have any final questions for me? <<END_INTERVIEW>>")))
  = 5%Z
  /\ is_in_soft_close
       (fst (five_topics
               (PyReturn "Do you have any final questions for me? <<END_INTERVIEW>>")))
     = false
  /\ reply_of
       (process_turn
          (fst (five_topics
                  (PyReturn "Do you have any final questions for me? <<END_INTERVIEW>>")))
          "more on 5"
          (snd (five_topics
                  (PyReturn "Do you have any final questions for me? <<END_INTERVIEW>>"))))
     = "Do you have any final questions for me? <<END_INTERVIEW>>"
  /\ flag_of
       (process_turn
          (fst (five_topics
                  (PyReturn "Do you have any final questions for me? <<END_INTERVIEW>>")))
          "more on 5"
          (snd (five_topics
                  (PyReturn "Do you have any final questions for me? <<END_INTERVIEW>>"))))
     = false
  /\ is_finished
       (bot_of
          (process_turn
             (fst (five_topics
                     (PyReturn "Do you have any final questions for me? <<END_INTERVIEW>>")))
             "more on 5"
             (snd (five_topics
                     (PyReturn "Do you have any final questions for me? <<END_INTERVIEW>>")))))
     = false.
Proof. vm_compute. repeat split; reflexivity. Qed.

(** C2 also fails where the sentinel is looked for: [str.replace] makes one
    pass, so an occurrence that only forms once an inner one is removed stays
    in the reply. *)
Lemma nested_sentinel_survives_replace :
  reply_of (process_turn ada "I am fine, thanks."
              (scripted [PyReturn "<<END_<<END_INTERVIEW>>INTERVIEW>>"]))
  = "<<END_INTERVIEW>>"
  /\ flag_of (process_turn ada "I am fine, thanks."
                (scripted [PyReturn "<<END_<<END_INTERVIEW>>INTERVIEW>>"]))
     = true.
Proof. vm_compute. split; reflexivity. Qed.

(** * Further properties of the interviewer *)

(** ** What a turn never undoes *)

(** X1. A turn never resets a flag: a finished session stays finished and a
    session in soft close stays in soft close. *)
Theorem flags_are_never_reset self candidate_reply env :
  (is_finished self = true ->
   is_finished (bot_of (process_turn self candidate_reply env)) = true)
  /\ (is_in_soft_close self = true ->
      is_in_soft_close (bot_of (process_turn self candidate_reply env)) = true).
Proof.
  split; intros Hflag; revert Hflag; all_paths; intros; congruence.
Qed.

Lemma flags_are_never_reset_witness :
  is_finished (fst dismissed_session) = true
  /\ is_finished (bot_of (process_turn (fst dismissed_session) "hello again"
                            (snd dismissed_session))) = true.
Proof.
  assert (H : is_finished (fst dismissed_session) = true) by (vm_compute; reflexivity).
  split; [exact H|].
  exact (proj1 (flags_are_never_reset (fst dismissed_session) "hello again"
                  (snd dismissed_session)) H).
Defined.

(** ** Model calls *)

(** X2. A turn calls the model once, with the guide of its path (the
    closing instruction in soft close, the wrap-up instruction when the cap
    on primary questions is reached, the pacing guide otherwise), and a
    second time, with the instruction to restate the question, exactly when
    it is an ordinary turn whose first reply is the warning tag and whose
    warning does not end the session.  Earlier calls stay recorded and the
    script is untouched. *)
Theorem model_calls_of_a_turn self candidate_reply env :
  llm_calls (env_of (process_turn self candidate_reply env))
  = (llm_calls env
     ++ prompt_for (heard self candidate_reply) (turn_guide self)
        :: (if restates_question self env
            then [prompt_for (memory_add (AIMessage warning_message)
                                (heard self candidate_reply))
                             re_ask_message]
            else []))%list
  /\ llm_script (env_of (process_turn self candidate_reply env)) = llm_script env.
Proof.
  unfold turn_guide, restates_question.
  all_paths.
  all: rewrite ?llm_calls_after_call, <- ?app_assoc; simpl.
  all: repeat match goal with
              | H : _ = true |- _ => rewrite H
              | H : _ = false |- _ => rewrite H
              end; simpl.
  all: split; reflexivity.
Qed.

(** ** The soft close *)

(** X3. Once the cap on primary questions is reached, or the session is in
    soft close, a turn leaves the three counters as they were and the
    session is in soft close after it: the warning tag is no longer
    interpreted and no further question is counted. *)
Theorem counters_frozen_after_cap self candidate_reply env :
  is_in_soft_close self = true
  \/ (MAX_PRIMARY_QUESTIONS <= primary_question_count self)%Z ->
  warning_count (bot_of (process_turn self candidate_reply env))
  = warning_count self
  /\ primary_question_count (bot_of (process_turn self candidate_reply env))
     = primary_question_count self
  /\ elaboration_count (bot_of (process_turn self candidate_reply env))
     = elaboration_count self
  /\ is_in_soft_close (bot_of (process_turn self candidate_reply env)) = true.
Proof.
  intros Hpath. revert Hpath. all_paths; intros [Hc|Hc]; try discriminate.
  all: try (exfalso; z_facts; lia).
  all: repeat split; try reflexivity; congruence.
Qed.

Lemma counters_frozen_after_cap_witness :
  (is_in_soft_close (fst (five_topics (PyReturn WARNING_TAG))) = true
   \/ (MAX_PRIMARY_QUESTIONS
       <= primary_question_count (fst (five_topics (PyReturn WARNING_TAG))))%Z)
  /\ warning_count
       (bot_of (process_turn (fst (five_topics (PyReturn WARNING_TAG)))
                  "this is stupid" (snd (five_topics (PyReturn WARNING_TAG)))))
     = warning_count (fst (five_topics (PyReturn WARNING_TAG))).
Proof.
  assert (H : is_in_soft_close (fst (five_topics (PyReturn WARNING_TAG))) = true
              \/ (MAX_PRIMARY_QUESTIONS
                  <= primary_question_count
                       (fst (five_topics (PyReturn WARNING_TAG))))%Z)
    by (right; vm_compute; discriminate).
  split; [exact H|].
  exact (proj1 (counters_frozen_after_cap
                  (fst (five_topics (PyReturn WARNING_TAG))) "this is stupid"
                  (snd (five_topics (PyReturn WARNING_TAG))) H)).
Defined.

(** X4. In soft close the sentinel alone decides: the turn's flag and the
    session's [is_finished] are set exactly when the generated text carries
    the sentinel (an already finished session stays finished), and without
    it the text is returned as it is. *)
Theorem soft_close_turn_outcome self candidate_reply env :
  is_in_soft_close self = true ->
  flag_of (process_turn self candidate_reply env)
  = contains SENTINEL_END_PHRASE (generated_text (next_outcome env))
  /\ is_finished (bot_of (process_turn self candidate_reply env))
     = (is_finished self
        || contains SENTINEL_END_PHRASE (generated_text (next_outcome env)))
  /\ (contains SENTINEL_END_PHRASE (generated_text (next_outcome env)) = false ->
      reply_of (process_turn self candidate_reply env)
      = generated_text (next_outcome env)).
Proof.
  intros Hsoft. open_turn. simpl. rewrite Hsoft, ?invoke_llm_eq.
  destruct (contains SENTINEL_END_PHRASE (generated_text (next_outcome env)));
    simpl; rewrite ?orb_true_r, ?orb_false_r;
    repeat split; try reflexivity; discriminate.
Qed.

(** A session in soft close, after the wrap-up question was asked. *)
Lemma soft_close_turn_outcome_witness :
  is_in_soft_close
    (fst (converse ["more on 5"]
            (five_topics (PyReturn "Do you have any final questions for me?"))))
  = true
  /\ flag_of
       (process_turn
          (fst (converse ["more on 5"]
                  (five_topics (PyReturn "Do you have any final questions for me?"))))
          "No, thank you."
          (snd (converse ["more on 5"]
                  (five_topics (PyReturn "Do you have any final questions for me?")))))
     = contains SENTINEL_END_PHRASE
         (generated_text
            (next_outcome
               (snd (converse ["more on 5"]
                       (five_topics
                          (PyReturn "Do you have any final questions for me?")))))).
Proof.
  assert (H : is_in_soft_close
                (fst (converse ["more on 5"]
                        (five_topics
                           (PyReturn "Do you have any final questions for me?"))))
              = true) by (vm_compute; reflexivity).
  split; [exact H|].
  exact (proj1 (soft_close_turn_outcome _ "No, thank you." _ H)).
Defined.

Lemma turn_keeps_script self candidate_reply env :
  llm_script (env_of (process_turn self candidate_reply env)) = llm_script env.
Proof. all_paths; reflexivity. Qed.

Lemma turn_keeps_soft_close self candidate_reply env :
  is_in_soft_close self = true ->
  is_in_soft_close (bot_of (process_turn self candidate_reply env)) = true.
Proof. intros Hsoft. revert Hsoft. all_paths; intros; congruence. Qed.

Lemma soft_close_turn_is_finished self candidate_reply env :
  is_in_soft_close self = true ->
  is_finished (bot_of (process_turn self candidate_reply env))
  = (is_finished self
     || contains SENTINEL_END_PHRASE (generated_text (next_outcome env))).
Proof.
  intros Hsoft. open_turn. simpl. rewrite Hsoft, ?invoke_llm_eq.
  destruct (contains SENTINEL_END_PHRASE (generated_text (next_outcome env)));
    simpl; rewrite ?orb_true_r, ?orb_false_r; reflexivity.
Qed.

Lemma converse_cons reply replies self env :
  converse (reply :: replies) (self, env)
  = converse replies (bot_of (process_turn self reply env),
                      env_of (process_turn self reply env)).
Proof. reflexivity. Qed.

(** X5. A model that never produces the sentinel keeps a soft-closing
    session open for ever: whatever the candidate says and however many
    turns are made, the session stays unfinished and in soft close. *)
Theorem soft_close_without_sentinel_never_ends replies : forall self env,
  is_in_soft_close self = true ->
  is_finished self = false ->
  (forall n, contains SENTINEL_END_PHRASE (generated_text (llm_script env n)) = false) ->
  is_finished (fst (converse replies (self, env))) = false
  /\ is_in_soft_close (fst (converse replies (self, env))) = true.
Proof.
  induction replies as [|reply replies IH]; intros self env Hsoft Hopen Hnever.
  - split; assumption.
  - rewrite converse_cons. apply IH.
    + apply turn_keeps_soft_close. exact Hsoft.
    + rewrite (soft_close_turn_is_finished self reply env Hsoft), Hopen.
      simpl. apply Hnever.
    + intros n. rewrite turn_keeps_script. apply Hnever.
Qed.

Lemma soft_close_without_sentinel_never_ends_witness :
  is_in_soft_close
    (fst (converse ["more on 5"]
            (five_topics (PyReturn "Do you have any final questions for me?"))))
  = true
  /\ is_finished
       (fst (converse ["No."; "Hello?"; "Are we done?"]
          (fst (converse ["more on 5"]
                  (five_topics (PyReturn "Do you have any final questions for me?"))),
           scripted [])))
     = false.
Proof.
  assert (Hsoft : is_in_soft_close
                    (fst (converse ["more on 5"]
                            (five_topics
                               (PyReturn "Do you have any final questions for me?"))))
                  = true) by (vm_compute; reflexivity).
  assert (Hopen : is_finished
                    (fst (converse ["more on 5"]
                            (five_topics
                               (PyReturn "Do you have any final questions for me?"))))
                  = false) by (vm_compute; reflexivity).
  assert (Hnever : forall n,
             contains SENTINEL_END_PHRASE
               (generated_text (llm_script (scripted []) n)) = false)
    by (intros n; destruct n; vm_compute; reflexivity).
  split; [exact Hsoft|].
  exact (proj1 (soft_close_without_sentinel_never_ends
                  ["No."; "Hello?"; "Are we done?"] _ (scripted [])
                  Hsoft Hopen Hnever)).
Defined.

(** ** The pacing schedule *)

Lemma turn_keeps_schedule self candidate_reply env :
  on_schedule self ->
  on_schedule (bot_of (process_turn self candidate_reply env)).
Proof.
  unfold on_schedule. intros (Hp & He & H0 & H5). revert Hp He H0 H5.
  all_paths; intros Hp He H0 H5; z_facts.
  all: repeat split; try lia; try assumption; intros; try lia.
Qed.

Lemma reachable_on_schedule self : reachable self -> on_schedule self.
Proof.
  induction 1 as [jd rc lvl name | self Hr IH | self reply env Hr IH].
  - unfold on_schedule; simpl; z_facts. repeat split; try lia; intros; lia.
  - exact IH.
  - apply turn_keeps_schedule. exact IH.
Qed.

(** X6. On every session, whatever turns were made on it, the pacing
    counters stay within their caps, no follow-up is counted before the
    first question, and the last primary question never gets a follow-up:
    when [primary_question_count] is at its cap, [elaboration_count] is 0. *)
Theorem last_topic_has_no_follow_up self :
  reachable self ->
  (0 <= primary_question_count self <= MAX_PRIMARY_QUESTIONS)%Z
  /\ (0 <= elaboration_count self <= MAX_ELABORATIONS)%Z
  /\ (primary_question_count self = 0%Z -> elaboration_count self = 0%Z)
  /\ (primary_question_count self = MAX_PRIMARY_QUESTIONS ->
      elaboration_count self = 0%Z).
Proof. intros Hr. exact (reachable_on_schedule self Hr). Qed.

Lemma last_topic_has_no_follow_up_witness :
  reachable (fst (five_topics (PyReturn "Any questions?")))
  /\ (primary_question_count (fst (five_topics (PyReturn "Any questions?")))
      = MAX_PRIMARY_QUESTIONS ->
      elaboration_count (fst (five_topics (PyReturn "Any questions?"))) = 0%Z).
Proof.
  assert (H : reachable (fst (five_topics (PyReturn "Any questions?"))))
    by (apply converse_reachable, ada_reachable).
  split; [exact H|].
  exact (proj2 (proj2 (proj2 (last_topic_has_no_follow_up _ H)))).
Defined.

Lemma ordinary_turn_counters self candidate_reply env :
  is_in_soft_close self = false ->
  (primary_question_count self < MAX_PRIMARY_QUESTIONS)%Z ->
  (is_finished (bot_of (process_turn self candidate_reply env)) = false ->
   any_startswith (reply_of (process_turn self candidate_reply env))
                  REPETITION_PHRASES = false ->
   (primary_question_count (bot_of (process_turn self candidate_reply env)),
    elaboration_count (bot_of (process_turn self candidate_reply env)))
   = spec_counter_update
       (spec_pacing_policy (primary_question_count self)
                           (elaboration_count self) MAX_ELABORATIONS)
       (primary_question_count self, elaboration_count self))
  /\ (is_finished (bot_of (process_turn self candidate_reply env)) = true
      \/ any_startswith (reply_of (process_turn self candidate_reply env))
                        REPETITION_PHRASES = true ->
      (primary_question_count (bot_of (process_turn self candidate_reply env)),
       elaboration_count (bot_of (process_turn self candidate_reply env)))
      = (primary_question_count self, elaboration_count self)).
Proof.
  intros Hsoft Hcap. revert Hsoft Hcap.
  unfold spec_pacing_policy, spec_counter_update.
  all_paths; intros Hsoft Hcap; try discriminate.
  all: try (exfalso; z_facts; lia).
  all: split; [intros Hfin Hrep | intros [Hfin|Hrep]]; simpl in *;
       try congruence; try reflexivity.
  all: z_facts; try lia.
  all: split_branches; z_facts; try lia; try reflexivity.
Qed.

(** X7. The schedule advances one step at a time.  On a turn of a session
    that is on schedule, not in soft close and below the cap on primary
    questions, the number of schedule steps grows by exactly 1 when the
    session is not finished by the turn and the reply is not a clarification
    reply, and stays as it was otherwise. *)
Theorem schedule_advances_by_one self candidate_reply env :
  on_schedule self ->
  is_in_soft_close self = false ->
  (primary_question_count self < MAX_PRIMARY_QUESTIONS)%Z ->
  pacing_progress (bot_of (process_turn self candidate_reply env))
  = (pacing_progress self
     + if negb (is_finished (bot_of (process_turn self candidate_reply env)))
          && negb (any_startswith (reply_of (process_turn self candidate_reply env))
                                  REPETITION_PHRASES)
       then 1 else 0)%Z.
Proof.
  intros (Hp & He & H0 & H5) Hsoft Hcap.
  destruct (ordinary_turn_counters self candidate_reply env Hsoft Hcap)
    as [Hadv Hkeep].
  unfold pacing_progress.
  destruct (is_finished (bot_of (process_turn self candidate_reply env))) eqn:Hfin;
    [|destruct (any_startswith (reply_of (process_turn self candidate_reply env))
                               REPETITION_PHRASES) eqn:Hrep]; simpl.
  - injection (Hkeep (or_introl eq_refl)) as -> ->. lia.
  - injection (Hkeep (or_intror eq_refl)) as -> ->. lia.
  - specialize (Hadv eq_refl eq_refl).
    unfold spec_pacing_policy, spec_counter_update in Hadv. z_facts.
    destruct (Z.eqb_spec (primary_question_count self) 0) as [E|E].
    + injection Hadv as -> ->. rewrite (H0 E). reflexivity.
    + destruct (Z.ltb_spec (elaboration_count self) 1);
        injection Hadv as -> ->.
      * destruct (Z.eqb_spec (primary_question_count self) 0); lia.
      * destruct (Z.eqb_spec (primary_question_count self + 1) 0); lia.
Qed.

Lemma schedule_advances_by_one_witness :
  on_schedule ada
  /\ is_in_soft_close ada = false
  /\ (primary_question_count ada < MAX_PRIMARY_QUESTIONS)%Z
  /\ pacing_progress
       (bot_of (process_turn ada "I am fine, thanks."
                  (scripted [PyReturn "Good. Tell me about your last project."])))
     = 1%Z.
Proof.
  assert (Hs : on_schedule ada) by (apply reachable_on_schedule, ada_reachable).
  assert (Hc : (primary_question_count ada < MAX_PRIMARY_QUESTIONS)%Z)
    by (vm_compute; reflexivity).
  split; [exact Hs|]. split; [reflexivity|]. split; [exact Hc|].
  rewrite (schedule_advances_by_one ada "I am fine, thanks."
             (scripted [PyReturn "Good. Tell me about your last project."])
             Hs eq_refl Hc).
  vm_compute; reflexivity.
Defined.

(** The schedule is complete, and the soft close due, after nine steps. *)
Lemma progress_at_cap self :
  on_schedule self ->
  (pacing_progress self <= 9)%Z
  /\ (pacing_progress self = 9%Z <->
      primary_question_count self = MAX_PRIMARY_QUESTIONS).
Proof.
  unfold on_schedule, pacing_progress. intros (Hp & He & H0 & H5).
  destruct (Z.eqb_spec (primary_question_count self) 0); z_facts.
  - split; [lia|]. split; intros; lia.
  - destruct (Z.eq_dec (primary_question_count self) 5) as [E|E].
    + specialize (H5 E). split; [lia|]. split; intros; lia.
    + split; [lia|]. split; intros; lia.
Qed.

(** X8. The schedule has nine steps: on every session the number of steps
    taken is at most 9, and the cap on primary questions, which opens the
    soft close on the next turn, is reached exactly at step 9 (five
    primary questions and the follow-ups of the first four). *)
Theorem schedule_has_nine_steps self :
  reachable self ->
  (0 <= pacing_progress self <= 9)%Z
  /\ (pacing_progress self = 9%Z <->
      primary_question_count self = MAX_PRIMARY_QUESTIONS).
Proof.
  intros Hr. pose proof (reachable_on_schedule self Hr) as Hs.
  destruct (progress_at_cap self Hs) as [Hle Hiff].
  split; [|exact Hiff]. split; [|exact Hle].
  destruct Hs as (Hp & He & _). unfold pacing_progress. z_facts.
  destruct (Z.eqb_spec (primary_question_count self) 0); lia.
Qed.

Lemma schedule_has_nine_steps_witness :
  reachable (fst (five_topics (PyReturn "Any questions?")))
  /\ (0 <= pacing_progress (fst (five_topics (PyReturn "Any questions?"))) <= 9)%Z.
Proof.
  assert (H : reachable (fst (five_topics (PyReturn "Any questions?"))))
    by (apply converse_reachable, ada_reachable).
  split; [exact H|]. exact (proj1 (schedule_has_nine_steps _ H)).
Defined.

(** ** The audit trail of pivots *)

Lemma pivots_snoc_other (l : list Entry) (e : Entry) :
  is_pivot_marker e = false ->
  List.length (List.filter is_pivot_marker (l ++ [e]))
  = List.length (List.filter is_pivot_marker l).
Proof.
  intros He. rewrite List.filter_app, length_app. simpl. rewrite He. simpl. lia.
Qed.

Lemma pivots_snoc_marker (l : list Entry) :
  List.length (List.filter is_pivot_marker (l ++ [mkEntry "PROTOCOL" PIVOT_TAG]))
  = S (List.length (List.filter is_pivot_marker l)).
Proof.
  rewrite List.filter_app, length_app.
  replace (List.filter is_pivot_marker [mkEntry "PROTOCOL" PIVOT_TAG])
    with [mkEntry "PROTOCOL" PIVOT_TAG] by reflexivity.
  simpl. lia.
Qed.

Ltac count_pivots :=
  repeat first [ rewrite pivots_snoc_other by reflexivity
               | rewrite pivots_snoc_marker ].

Lemma turn_keeps_pivot_count self candidate_reply env :
  on_schedule self ->
  Z.of_nat (List.length (List.filter is_pivot_marker (transcript_history self)))
  = Z.max 0 (primary_question_count self - 1) ->
  Z.of_nat (List.length
              (List.filter is_pivot_marker
                 (transcript_history (bot_of (process_turn self candidate_reply env)))))
  = Z.max 0 (primary_question_count
               (bot_of (process_turn self candidate_reply env)) - 1).
Proof.
  intros (Hp & He & H0 & H5). revert Hp He H0 H5.
  all_paths; intros Hp He H0 H5 Hcount; count_pivots; z_facts; lia.
Qed.

(** X9. The transcript keeps count of the pivots: on every session the
    number of PROTOCOL entries holding the pivot tag is one less than the
    number of primary questions asked (and 0 before the first question), so
    a session that has reached the cap shows exactly four pivots. *)
Theorem pivot_markers_count_topics self :
  reachable self ->
  Z.of_nat (List.length (List.filter is_pivot_marker (transcript_history self)))
  = Z.max 0 (primary_question_count self - 1).
Proof.
  induction 1 as [jd rc lvl name | self Hr IH | self reply env Hr IH].
  - reflexivity.
  - unfold init_session; simpl. count_pivots. exact IH.
  - apply turn_keeps_pivot_count; [apply reachable_on_schedule; exact Hr | exact IH].
Qed.

Lemma pivot_markers_count_topics_witness :
  reachable (fst (five_topics (PyReturn "Any questions?")))
  /\ Z.of_nat (List.length
       (List.filter is_pivot_marker
          (transcript_history (fst (five_topics (PyReturn "Any questions?"))))))
     = 4%Z.
Proof.
  assert (H : reachable (fst (five_topics (PyReturn "Any questions?"))))
    by (apply converse_reachable, ada_reachable).
  split; [exact H|].
  rewrite (pivot_markers_count_topics _ H). vm_compute; reflexivity.
Defined.

(** ** Memory and transcript *)

Lemma append_transcript_acc l : forall acc,
  Grader.append_transcript acc l = (acc ++ Grader.transcript_messages l)%list.
Proof.
  unfold Grader.transcript_messages, Grader.append_transcript.
  induction l as [|e l IH]; intros acc; simpl.
  - rewrite app_nil_r. reflexivity.
  - rewrite IH. rewrite (IH (if String.eqb (etype e) "human" then _ else _)).
    destruct (String.eqb (etype e) "human");
      [|destruct (String.eqb (etype e) "ai")];
      rewrite <- ?app_assoc; reflexivity.
Qed.

Lemma transcript_messages_app l1 l2 :
  Grader.transcript_messages (l1 ++ l2)
  = (Grader.transcript_messages l1 ++ Grader.transcript_messages l2)%list.
Proof.
  unfold Grader.transcript_messages at 1 2. unfold Grader.append_transcript.
  rewrite fold_left_app. fold (Grader.append_transcript [] l1).
  fold (Grader.append_transcript (Grader.append_transcript [] l1) l2).
  rewrite append_transcript_acc. reflexivity.
Qed.

Lemma messages_snoc_human l text :
  Grader.transcript_messages (l ++ [mkEntry "human" text])
  = (Grader.transcript_messages l ++ [HumanMessage text])%list.
Proof. rewrite transcript_messages_app. reflexivity. Qed.

Lemma messages_snoc_ai l text :
  Grader.transcript_messages (l ++ [mkEntry "ai" text])
  = (Grader.transcript_messages l ++ [AIMessage text])%list.
Proof. rewrite transcript_messages_app. reflexivity. Qed.

Lemma messages_snoc_protocol l text :
  Grader.transcript_messages (l ++ [mkEntry "PROTOCOL" text])
  = Grader.transcript_messages l.
Proof. rewrite transcript_messages_app. apply app_nil_r. Qed.

Ltac read_messages :=
  rewrite ?messages_snoc_human, ?messages_snoc_ai, ?messages_snoc_protocol.

Lemma turn_keeps_memory_mirror self candidate_reply env :
  memory self = Grader.transcript_messages (transcript_history self) ->
  is_finished (bot_of (process_turn self candidate_reply env)) = false ->
  memory (bot_of (process_turn self candidate_reply env))
  = Grader.transcript_messages
      (transcript_history (bot_of (process_turn self candidate_reply env))).
Proof.
  all_paths; intros Hmem Hopen; try discriminate.
  all: repeat (read_messages; simpl).
  all: rewrite Hmem; reflexivity.
Qed.

(** X10. While a session is open, what the interviewer model is shown is
    what the graders will read: on every session driven turn by turn while
    unfinished, the memory is the list of the human and ai entries of the
    transcript, in order, as the grader's loop extracts them (PROTOCOL
    entries left out). *)
Theorem memory_mirrors_transcript self :
  live_reachable self ->
  is_finished self = false ->
  memory self = Grader.transcript_messages (transcript_history self).
Proof.
  induction 1 as [jd rc lvl name | self Hr IH | self reply env Hr IH Hlive];
    intros Hopen.
  - reflexivity.
  - unfold init_session in *; simpl in *. read_messages.
    rewrite (IH Hopen). reflexivity.
  - apply turn_keeps_memory_mirror; [apply IH; exact Hlive | exact Hopen].
Qed.

Lemma memory_mirrors_transcript_witness :
  live_reachable (fst warned_session)
  /\ is_finished (fst warned_session) = false
  /\ List.length (transcript_history (fst warned_session)) = 12%nat
  /\ List.length
       (List.filter (fun entry => String.eqb (etype entry) "PROTOCOL")
                    (transcript_history (fst warned_session))) = 2%nat
  /\ List.length (memory (fst warned_session)) = 10%nat
  /\ memory (fst warned_session)
     = Grader.transcript_messages (transcript_history (fst warned_session)).
Proof.
  assert (H : live_reachable (fst warned_session))
    by (apply converse_live_reachable;
        [apply ada_live_reachable | vm_compute; reflexivity]).
  assert (Hopen : is_finished (fst warned_session) = false)
    by (vm_compute; reflexivity).
  split; [exact H|]. split; [exact Hopen|].
  split; [vm_compute; reflexivity|].
  split; [vm_compute; reflexivity|].
  split; [vm_compute; reflexivity|].
  exact (memory_mirrors_transcript (fst warned_session) H Hopen).
Defined.

(** * Further properties of the interview endpoints *)

Lemma turn_extends_transcript self candidate_reply env :
  exists rest,
    transcript_history (bot_of (process_turn self candidate_reply env))
    = (transcript_history self ++ mkEntry "human" candidate_reply :: rest)%list
    /\ Forall bot_side rest.
Proof.
  all_paths.
  all: rewrite <- ?app_assoc; simpl; eexists; (split; [reflexivity|]).
  all: repeat (apply Forall_cons; split;
               [first [left; reflexivity | right; reflexivity]|]).
  all: apply Forall_nil; exact I.
Qed.

(** X11. Sessions are isolated in the dict: a start or a chat request for
    one session id leaves the entry of every other id as it was. *)
Theorem requests_touch_one_session r st other :
  other <> match r with
           | Api.Start session_id _ => session_id
           | Api.Chat session_id _ => session_id
           end ->
  Api.INTERVIEW_SESSIONS (snd (Api.handle r st)) !! other
  = Api.INTERVIEW_SESSIONS st !! other.
Proof.
  intros Hother. destruct r as [sid data | sid reply]; simpl.
  - destruct data as [| e | c]; simpl; try reflexivity.
    apply lookup_insert_ne. congruence.
  - unfold Api.continue_interview.
    destruct (Api.INTERVIEW_SESSIONS st !! sid) as [bot|] eqn:Hsid; [|reflexivity].
    rewrite chat_interview_logic_eq. simpl.
    destruct (flag_of (process_turn bot reply (Api.world st))); simpl.
    + rewrite lookup_delete_ne by congruence. apply lookup_insert_ne. congruence.
    + apply lookup_insert_ne. congruence.
Qed.

Lemma requests_touch_one_session_witness :
  "session-2" <> "session-1"
  /\ Api.INTERVIEW_SESSIONS
       (snd (Api.handle (Api.Chat "session-1" "Tell me more.") one_chat_server))
     !! "session-2"
     = Api.INTERVIEW_SESSIONS one_chat_server !! "session-2".
Proof.
  assert (H : "session-2" <> "session-1") by discriminate.
  split; [exact H|].
  exact (requests_touch_one_session (Api.Chat "session-1" "Tell me more.")
           one_chat_server "session-2" H).
Defined.

(** X12. A chat request for a session that is in the dict is always
    answered with an [InterviewResponse] for that id.  When its flag is set
    the response carries a grading context whose transcript is the stored
    transcript, then the candidate's reply, then the entries the interviewer
    added, and the session is gone from the dict; when the flag is not set
    there is no context and the session, with that same extended
    transcript, is still in the dict. *)
Theorem chat_response_and_transcript session_id candidate_reply st bot :
  Api.INTERVIEW_SESSIONS st !! session_id = Some bot ->
  exists message flag context st' rest,
    Api.continue_interview session_id candidate_reply st
    = (Api.InterviewResponse session_id message flag context, st')
    /\ Forall bot_side rest
    /\ (flag = true ->
        Api.INTERVIEW_SESSIONS st' !! session_id = None
        /\ exists ctx,
             context = Some ctx
             /\ ctx_transcript ctx
                = (transcript_history bot
                   ++ mkEntry "human" candidate_reply :: rest)%list)
    /\ (flag = false ->
        context = None
        /\ exists bot',
             Api.INTERVIEW_SESSIONS st' !! session_id = Some bot'
             /\ transcript_history bot'
                = (transcript_history bot
                   ++ mkEntry "human" candidate_reply :: rest)%list).
Proof.
  intros Hsid.
  destruct (turn_extends_transcript bot candidate_reply (Api.world st))
    as (rest & Hrest & Hside).
  unfold Api.continue_interview. rewrite Hsid, chat_interview_logic_eq. simpl.
  destruct (flag_of (process_turn bot candidate_reply (Api.world st))); simpl.
  - do 4 eexists. exists rest. split; [reflexivity|]. split; [exact Hside|].
    split; [|discriminate]. intros _. simpl.
    split; [apply lookup_delete_eq|].
    eexists. split; [reflexivity|]. exact Hrest.
  - do 4 eexists. exists rest. split; [reflexivity|]. split; [exact Hside|].
    split; [discriminate|]. intros _. split; [reflexivity|]. simpl.
    eexists. split; [apply lookup_insert_eq | exact Hrest].
Qed.

Lemma chat_response_and_transcript_witness :
  Api.INTERVIEW_SESSIONS one_chat_server !! "session-1"
  = Some (bot_of (process_turn ada "I am fine, thanks."
                    (scripted [PyReturn "Good. Tell me about your last project."])))
  /\ exists message flag context st',
       Api.continue_interview "session-1" "Tell me more." one_chat_server
       = (Api.InterviewResponse "session-1" message flag context, st').
Proof.
  assert (H : Api.INTERVIEW_SESSIONS one_chat_server !! "session-1"
              = Some (bot_of (process_turn ada "I am fine, thanks."
                        (scripted [PyReturn "Good. Tell me about your last project."]))))
    by (vm_compute; reflexivity).
  split; [exact H|].
  destruct (chat_response_and_transcript "session-1" "Tell me more."
              one_chat_server _ H) as (m & f & c & st' & rest & Heq & _).
  exists m, f, c, st'. exact Heq.
Defined.

Lemma chat_llm_calls session_id candidate_reply st bot :
  Api.INTERVIEW_SESSIONS st !! session_id = Some bot ->
  llm_calls (Api.world (snd (Api.continue_interview session_id candidate_reply st)))
  = llm_calls (env_of (process_turn bot candidate_reply (Api.world st))).
Proof.
  intros Hsid. unfold Api.continue_interview.
  rewrite Hsid, chat_interview_logic_eq. cbv zeta.
  destruct (flag_of (process_turn bot candidate_reply (Api.world st)));
    reflexivity.
Qed.

Lemma first_turn_prompt c candidate_reply env :
  llm_calls (env_of (process_turn (snd (start_interview_logic c))
                       candidate_reply env))
  !! List.length (llm_calls env)
  = Some [ SystemMessage
             (_get_system_instruction (sc_job_desc_str c) (sc_resume_content_str c)
                                      (sc_job_level c) (sc_candidate_name c));
           AIMessage (fst (start_interview_logic c));
           HumanMessage candidate_reply;
           HumanMessage first_topic_guide ].
Proof.
  all_paths; rewrite ?llm_calls_after_call;
    first [apply lookup_after_last | apply lookup_after_prefix].
Qed.

(** X13. The first chat turn of a started session: whatever the documents
    and the candidate's reply, the model is called with the system
    instruction, the greeting, the reply and the guide for the first
    primary question, in that order, and with nothing else. *)
Theorem first_chat_prompt session_id c candidate_reply sessions env :
  llm_calls
    (Api.world
       (snd (Api.continue_interview session_id candidate_reply
               (snd (Api.start_interview session_id (Api.Documents c)
                       (Api.mkState sessions env))))))
  !! List.length (llm_calls env)
  = Some [ SystemMessage
             (_get_system_instruction (sc_job_desc_str c) (sc_resume_content_str c)
                                      (sc_job_level c) (sc_candidate_name c));
           AIMessage (fst (start_interview_logic c));
           HumanMessage candidate_reply;
           HumanMessage first_topic_guide ].
Proof.
  rewrite (chat_llm_calls session_id candidate_reply _
             (snd (start_interview_logic c))).
  - apply first_turn_prompt.
  - unfold Api.start_interview.
    destruct (start_interview_logic c) as [greeting bot]. simpl.
    apply lookup_insert_eq.
Qed.

Lemma process_turn_fs_frame self candidate_reply env :
  fs_script (env_of (process_turn self candidate_reply env)) = fs_script env
  /\ fs_writes (env_of (process_turn self candidate_reply env)) = fs_writes env
  /\ fs_saved (env_of (process_turn self candidate_reply env)) = fs_saved env.
Proof. all_paths; repeat split; reflexivity. Qed.

(** X14. The transcript file is written when, and only when, a turn's flag
    is set: [chat_interview_logic] makes one write attempt on such a turn
    and none otherwise, and the file holds the returned context exactly when
    that attempt succeeds. *)
Theorem transcript_file_written_on_finish self candidate_reply env :
  fs_writes (env_of (chat_interview_logic self candidate_reply env))
  = (fs_writes env
     + if chat_flag (chat_interview_logic self candidate_reply env) then 1 else 0)%nat
  /\ fs_saved (env_of (chat_interview_logic self candidate_reply env))
     = (fs_saved env
        ++ match chat_context (chat_interview_logic self candidate_reply env) with
           | Some ctx => if fs_script env (fs_writes env) then [ctx] else []
           | None => []
           end)%list.
Proof.
  rewrite chat_interview_logic_eq.
  destruct (process_turn_fs_frame self candidate_reply env) as (Hs & Hw & Hv).
  unfold chat_flag, chat_context. cbv zeta.
  destruct (flag_of (process_turn self candidate_reply env)).
  - unfold get_context_for_grading, write_transcript_file, env_of at 1 3; simpl.
    rewrite Hs, Hw, Hv.
    destruct (fs_script env (fs_writes env));
      repeat split; try discriminate; rewrite ?app_nil_r; try reflexivity; lia.
  - unfold env_of at 1 3; simpl. fold (env_of (process_turn self candidate_reply env)).
    rewrite Hw, Hv, app_nil_r. repeat split; try discriminate; lia.
Qed.

(** * Properties of the grader *)

Section GraderFacts.

Variable model_dump_json : Grader.InterviewRating -> string.

Lemma round_half_bounds total :
  (-1 <= 2 * Grader.round_half total - total <= 1)%Z.
Proof.
  unfold Grader.round_half.
  pose proof (Z.div_mod total 2 ltac:(lia)) as Hdm.
  pose proof (Z.mod_pos_bound total 2 ltac:(lia)) as Hmod.
  rewrite (Zeven_mod total).
  destruct (Z.eqb_spec (total mod 2) 0); [lia|].
  destruct (Z.even (total / 2)); lia.
Qed.

Lemma round_half_even_sum total :
  Z.even total = true -> (2 * Grader.round_half total = total)%Z.
Proof.
  intros Heven. unfold Grader.round_half. rewrite Heven.
  pose proof (Z.div_mod total 2 ltac:(lia)) as Hdm.
  rewrite Zeven_mod in Heven. apply Z.eqb_eq in Heven. lia.
Qed.

Lemma round_half_monotone s t :
  (s <= t)%Z -> (Grader.round_half s <= Grader.round_half t)%Z.
Proof.
  intros Hst. unfold Grader.round_half.
  pose proof (Z.div_mod s 2 ltac:(lia)) as Hs.
  pose proof (Z.mod_pos_bound s 2 ltac:(lia)) as Hsm.
  pose proof (Z.div_mod t 2 ltac:(lia)) as Ht.
  pose proof (Z.mod_pos_bound t 2 ltac:(lia)) as Htm.
  assert (Hq : (s / 2 <= t / 2)%Z) by (apply Z.div_le_mono; lia).
  rewrite (Zeven_mod s), (Zeven_mod t).
  destruct (Z.eqb_spec (s mod 2) 0) as [Es|Es];
    destruct (Z.eqb_spec (t mod 2) 0) as [Et|Et].
  - exact Hq.
  - destruct (Z.even (t / 2)); lia.
  - destruct (Z.even (s / 2)) eqn:Hes; [lia|].
    assert (s / 2 < t / 2)%Z by lia. lia.
  - destruct (Z.even (s / 2)) eqn:Hes; destruct (Z.even (t / 2)) eqn:Het; try lia.
    destruct (Z.eq_dec (s / 2) (t / 2)) as [E|E]; [|lia].
    rewrite E in Hes. congruence.
Qed.

(** X15. The consensus score is the mean of the two scores rounded to an
    integer, a half going to the even neighbour: it lies between the two
    scores, it is within one half of their mean, and it is the mean itself
    when the sum of the scores is even. *)
Theorem consensus_is_rounded_mean (a b : Z) :
  (Z.abs (a + b) <= 2 ^ 53)%Z ->
  (Z.min a b <= Grader.round_half (a + b) <= Z.max a b)%Z
  /\ (-1 <= 2 * Grader.round_half (a + b) - (a + b) <= 1)%Z
  /\ (Z.even (a + b) = true -> (2 * Grader.round_half (a + b) = a + b)%Z).
Proof.
  intros _. pose proof (round_half_bounds (a + b)) as Hb.
  split; [|split; [exact Hb | apply round_half_even_sum]].
  destruct (Z.even (a + b)) eqn:Heven.
  - pose proof (round_half_even_sum _ Heven). lia.
  - assert (a <> b).
    { intros ->. replace (b + b)%Z with (2 * b)%Z in Heven by lia.
      rewrite Z.even_mul in Heven. discriminate. }
    lia.
Qed.

Lemma consensus_is_rounded_mean_witness :
  (Z.abs (69 + 70) <= 2 ^ 53)%Z
  /\ (Z.min 69 70 <= Grader.round_half (69 + 70) <= Z.max 69 70)%Z.
Proof.
  assert (H : (Z.abs (69 + 70) <= 2 ^ 53)%Z) by (vm_compute; discriminate).
  split; [exact H|].
  exact (proj1 (consensus_is_rounded_mean 69 70 H)).
Defined.

Lemma recommendation_by_sum challenger_recommendation total :
  Grader.final_recommendation_for challenger_recommendation
                                  (Grader.round_half total)
  = Grader.recommendation_of_sum total.
Proof.
  unfold Grader.final_recommendation_for, Grader.recommendation_of_sum,
         Grader.PASSING_THRESHOLD.
  pose proof (round_half_bounds total) as Hb.
  destruct (Z.eq_dec total 139) as [->|H139]; [reflexivity|].
  destruct (Z.eq_dec total 109) as [->|H109]; [reflexivity|].
  rewrite !Z.geb_leb.
  destruct (Z.leb_spec 70 (Grader.round_half total));
    destruct (Z.leb_spec 139 total); try lia; try reflexivity.
  destruct (Z.leb_spec 55 (Grader.round_half total));
    destruct (Z.leb_spec 110 total); try lia; reflexivity.
Qed.

(** X16. The recommendation depends on the two scores only, through their
    sum: Strong Hire from 139 up, Proceed with Caution from 110 to 138, No
    Hire below 110.  A mean of 69.5 is rounded up to the passing score 70,
    while a mean of 54.5 is rounded down to 54 and fails the lower bar; the
    recommendation the challenger wrote is never kept. *)
Theorem recommendation_from_scores (challenger_recommendation : string) (a b : Z) :
  (Z.abs (a + b) <= 2 ^ 53)%Z ->
  Grader.final_recommendation_for challenger_recommendation
                                  (Grader.round_half (a + b))
  = if (139 <=? a + b)%Z then "Strong Hire (Exceeded Threshold)"
    else if (110 <=? a + b)%Z then "Proceed with Caution (Meets Potential)"
    else "No Hire (Fails Minimum Criteria)".
Proof. intros _. apply recommendation_by_sum. Qed.

Lemma recommendation_from_scores_witness :
  (Z.abs (54 + 55) <= 2 ^ 53)%Z
  /\ Grader.final_recommendation_for "Strong Hire" (Grader.round_half (54 + 55))
     = "No Hire (Fails Minimum Criteria)".
Proof.
  assert (H : (Z.abs (54 + 55) <= 2 ^ 53)%Z) by (vm_compute; discriminate).
  split; [exact H|].
  exact (recommendation_from_scores "Strong Hire" 54 55 H).
Defined.

(** X17. Better scores never give a worse outcome: when neither score goes
    down, the consensus score does not go down and the recommendation does
    not lose merit. *)
Theorem consensus_is_monotone (r r' : string) (a b a' b' : Z) :
  (Z.abs (a + b) <= 2 ^ 53)%Z -> (Z.abs (a' + b') <= 2 ^ 53)%Z ->
  (a <= a')%Z -> (b <= b')%Z ->
  (Grader.round_half (a + b) <= Grader.round_half (a' + b'))%Z
  /\ (Grader.merit (Grader.final_recommendation_for r (Grader.round_half (a + b)))
      <= Grader.merit
           (Grader.final_recommendation_for r' (Grader.round_half (a' + b'))))%Z.
Proof.
  intros _ _ Ha Hb. split; [apply round_half_monotone; lia|].
  rewrite !recommendation_by_sum. unfold Grader.recommendation_of_sum.
  destruct (Z.leb_spec 139 (a + b)); destruct (Z.leb_spec 139 (a' + b'));
    destruct (Z.leb_spec 110 (a + b)); destruct (Z.leb_spec 110 (a' + b'));
    try lia; vm_compute; discriminate.
Qed.

Lemma consensus_is_monotone_witness :
  (Z.abs (60 + 70) <= 2 ^ 53)%Z /\ (Z.abs (65 + 70) <= 2 ^ 53)%Z
  /\ (60 <= 65)%Z /\ (70 <= 70)%Z
  /\ (Grader.round_half (60 + 70) <= Grader.round_half (65 + 70))%Z.
Proof.
  assert (H1 : (Z.abs (60 + 70) <= 2 ^ 53)%Z) by (vm_compute; discriminate).
  assert (H2 : (Z.abs (65 + 70) <= 2 ^ 53)%Z) by (vm_compute; discriminate).
  assert (Ha : (60 <= 65)%Z) by lia. assert (Hb : (70 <= 70)%Z) by lia.
  split; [exact H1|]. split; [exact H2|]. split; [exact Ha|]. split; [exact Hb|].
  exact (proj1 (consensus_is_monotone "" "" 60 70 65 70 H1 H2 Ha Hb)).
Defined.

Lemma evaluate_candidate_steps context transcript_data w :
  Grader.is_empty_dict context = false ->
  Grader.cd_transcript context = Some transcript_data ->
  Grader.evaluate_candidate model_dump_json (Some context) w
  = let job_level_ := default "General" (Grader.cd_job_level context) in
    let rating_messages := Grader.rating_messages_of context transcript_data in
    let n := List.length (Grader.rating_calls w) in
    let first_call :=
      SystemMessage (Grader.grader_instruction "Initial Scorer" job_level_ "")
        :: rating_messages in
    let w1 := Grader.mkWorld (Grader.rating_script w)
                (Grader.rating_calls w ++ [first_call])
                (Grader.report_script w) (Grader.report_writes w)
                (Grader.reports_saved w) in
    match Grader.rating_script w n with
    | Grader.Raised e => (Grader.Raised e, w1)
    | Grader.Returned initial =>
        let second_call :=
          SystemMessage (Grader.grader_instruction "Challenger Grader" job_level_
                           (model_dump_json initial))
            :: rating_messages in
        let w2 := Grader.mkWorld (Grader.rating_script w)
                    (Grader.rating_calls w ++ [first_call; second_call])
                    (Grader.report_script w) (Grader.report_writes w)
                    (Grader.reports_saved w) in
        match Grader.rating_script w (S n) with
        | Grader.Raised e => (Grader.Raised e, w2)
        | Grader.Returned final =>
            let total := (Grader.overall_score initial
                          + Grader.overall_score final)%Z in
            let report :=
              Grader.mkRating (Grader.round_half total) (Grader.strengths final)
                (Grader.weaknesses final) (Grader.recommendation_of_sum total) in
            match Grader.report_script w (Grader.report_writes w) with
            | Some e =>
                (Grader.Raised e,
                 Grader.mkWorld (Grader.rating_script w)
                   (Grader.rating_calls w ++ [first_call; second_call])
                   (Grader.report_script w) (S (Grader.report_writes w))
                   (Grader.reports_saved w))
            | None =>
                (Grader.Returned (Some report),
                 Grader.mkWorld (Grader.rating_script w)
                   (Grader.rating_calls w ++ [first_call; second_call])
                   (Grader.report_script w) (S (Grader.report_writes w))
                   (Grader.reports_saved w ++ [report]))
            end
        end
    end.
Proof.
  intros Hne Htr. unfold Grader.evaluate_candidate.
  rewrite Hne, Htr. unfold Grader.chain_invoke, Grader.rating_messages_of. simpl.
  rewrite append_transcript_acc, <- !app_assoc. simpl.
  destruct (Grader.rating_script w (List.length (Grader.rating_calls w)))
    as [initial|e]; [|reflexivity].
  rewrite length_app. simpl.
  replace (List.length (Grader.rating_calls w) + 1)%nat
    with (S (List.length (Grader.rating_calls w))) by lia.
  destruct (Grader.rating_script w (S (List.length (Grader.rating_calls w))))
    as [final|e]; [|rewrite <- app_assoc; reflexivity].
  unfold Grader.write_report. simpl. rewrite recommendation_by_sum.
  rewrite <- !app_assoc. simpl.
  destruct (Grader.report_script w (Grader.report_writes w)); reflexivity.
Qed.

Lemma transcript_messages_flat_map transcript :
  Grader.transcript_messages transcript
  = flat_map (fun msg =>
                if String.eqb (etype msg) "human" then [HumanMessage (content msg)]
                else if String.eqb (etype msg) "ai" then [AIMessage (content msg)]
                else [])
             transcript.
Proof.
  induction transcript as [|e l IH]; [reflexivity|].
  change (e :: l) with ([e] ++ l)%list.
  rewrite transcript_messages_app, IH. simpl.
  unfold Grader.transcript_messages, Grader.append_transcript. simpl.
  destruct (String.eqb (etype e) "human");
    [|destruct (String.eqb (etype e) "ai")]; reflexivity.
Qed.

(** X18. When the context has a transcript, both agents answer and the
    report file can be written, [evaluate_candidate] returns and saves one
    report: its score is the consensus of the two scores, its
    recommendation is the one computed from them, and its strengths and
    weaknesses are the challenger's; nothing of the first agent's text and
    nothing of the challenger's own recommendation is in it. *)
Theorem consensus_report context transcript_data w initial final :
  Grader.is_empty_dict context = false ->
  Grader.cd_transcript context = Some transcript_data ->
  Grader.rating_script w (List.length (Grader.rating_calls w))
  = Grader.Returned initial ->
  Grader.rating_script w (S (List.length (Grader.rating_calls w)))
  = Grader.Returned final ->
  Grader.report_script w (Grader.report_writes w) = None ->
  (Z.abs (Grader.overall_score initial + Grader.overall_score final) <= 2 ^ 53)%Z ->
  fst (Grader.evaluate_candidate model_dump_json (Some context) w)
  = Grader.Returned
      (Some (Grader.mkRating
               (Grader.round_half (Grader.overall_score initial
                                   + Grader.overall_score final))
               (Grader.strengths final) (Grader.weaknesses final)
               (Grader.recommendation_of_sum
                  (Grader.overall_score initial + Grader.overall_score final))))
  /\ Grader.reports_saved
       (snd (Grader.evaluate_candidate model_dump_json (Some context) w))
     = (Grader.reports_saved w
        ++ [Grader.mkRating
              (Grader.round_half (Grader.overall_score initial
                                  + Grader.overall_score final))
              (Grader.strengths final) (Grader.weaknesses final)
              (Grader.recommendation_of_sum
                 (Grader.overall_score initial + Grader.overall_score final))])%list.
Proof.
  intros Hne Htr H1 H2 Hw _.
  rewrite (evaluate_candidate_steps context transcript_data w Hne Htr).
  cbv zeta. rewrite H1, H2, Hw. split; reflexivity.
Qed.

(** X19. Both agents are given the same conversation: after its own system
    message each gets the five context messages, then the human and ai
    entries of the transcript in their order (entries of any other type,
    such as PROTOCOL markers, are left out), then the end marker.  The
    challenger's system message is built from the first agent's rating. *)
Theorem agents_read_the_same_transcript context transcript_data w initial :
  Grader.is_empty_dict context = false ->
  Grader.cd_transcript context = Some transcript_data ->
  Grader.rating_script w (List.length (Grader.rating_calls w))
  = Grader.Returned initial ->
  Grader.rating_calls
    (snd (Grader.evaluate_candidate model_dump_json (Some context) w))
  = (Grader.rating_calls w
     ++ [ SystemMessage
            (Grader.grader_instruction "Initial Scorer"
               (default "General" (Grader.cd_job_level context)) "")
          :: (Grader.rating_header
                (default "General" (Grader.cd_job_level context)) context
              ++ flat_map
                   (fun msg =>
                      if String.eqb (etype msg) "human"
                      then [HumanMessage (content msg)]
                      else if String.eqb (etype msg) "ai"
                           then [AIMessage (content msg)]
                           else [])
                   transcript_data
              ++ [HumanMessage "--- END TRANSCRIPT ---"]);
          SystemMessage
            (Grader.grader_instruction "Challenger Grader"
               (default "General" (Grader.cd_job_level context))
               (model_dump_json initial))
          :: (Grader.rating_header
                (default "General" (Grader.cd_job_level context)) context
              ++ flat_map
                   (fun msg =>
                      if String.eqb (etype msg) "human"
                      then [HumanMessage (content msg)]
                      else if String.eqb (etype msg) "ai"
                           then [AIMessage (content msg)]
                           else [])
                   transcript_data
              ++ [HumanMessage "--- END TRANSCRIPT ---"]) ])%list.
Proof.
  intros Hne Htr H1.
  rewrite (evaluate_candidate_steps context transcript_data w Hne Htr).
  cbv zeta. rewrite H1. unfold Grader.rating_messages_of.
  rewrite transcript_messages_flat_map.
  destruct (Grader.rating_script w (S (List.length (Grader.rating_calls w))));
    [destruct (Grader.report_script w (Grader.report_writes w))|]; reflexivity.
Qed.

(** X20. Nothing is saved unless a report is returned: the list of saved
    reports grows by the returned report and by nothing else, whatever the
    context and whatever the agents and the file system do; and a call that
    returns no report because the context is missing or empty leaves the
    world untouched. *)
Theorem report_saved_iff_returned context w :
  Grader.reports_saved (snd (Grader.evaluate_candidate model_dump_json context w))
  = (Grader.reports_saved w
     ++ match fst (Grader.evaluate_candidate model_dump_json context w) with
        | Grader.Returned (Some report) => [report]
        | _ => []
        end)%list
  /\ (fst (Grader.evaluate_candidate model_dump_json context w)
      = Grader.Returned None ->
      snd (Grader.evaluate_candidate model_dump_json context w) = w).
Proof.
  destruct context as [context|]; [|split; [symmetry; apply app_nil_r|reflexivity]].
  destruct (Grader.is_empty_dict context) eqn:Hne.
  { unfold Grader.evaluate_candidate. rewrite Hne.
    split; [symmetry; apply app_nil_r|reflexivity]. }
  destruct (Grader.cd_transcript context) as [transcript_data|] eqn:Htr.
  - rewrite (evaluate_candidate_steps context transcript_data w Hne Htr).
    cbv zeta.
    destruct (Grader.rating_script w (List.length (Grader.rating_calls w)));
      [destruct (Grader.rating_script w (S (List.length (Grader.rating_calls w))));
       [destruct (Grader.report_script w (Grader.report_writes w))|]|];
      simpl; rewrite ?app_nil_r; split; try reflexivity; discriminate.
  - unfold Grader.evaluate_candidate. rewrite Hne, Htr. simpl.
    split; [symmetry; apply app_nil_r|discriminate].
Qed.

(** X21. The grading endpoint at the edges.  An empty context dict is
    answered "Grading Complete" with no evaluation, and no agent is run.  A
    dict without a transcript is answered 500 with the text of the
    [KeyError].  When the first agent raises, the answer is 501 with a fixed
    text for a [NotImplementedError] and otherwise 500 with the text of the
    exception, and the challenger is not run. *)
Theorem grade_transcript_failures context w :
  (Grader.is_empty_dict context = true ->
   Grader.grade_transcript model_dump_json context w
   = (Grader.GradingComplete None, w))
  /\ (Grader.is_empty_dict context = false ->
      Grader.cd_transcript context = None ->
      Grader.grade_transcript model_dump_json context w
      = (Grader.GradeHTTPException 500
           "Internal server error during grading: 'transcript'", w))
  /\ (forall transcript_data e,
        Grader.is_empty_dict context = false ->
        Grader.cd_transcript context = Some transcript_data ->
        Grader.rating_script w (List.length (Grader.rating_calls w))
        = Grader.Raised e ->
        fst (Grader.grade_transcript model_dump_json context w)
        = (if Grader.is_not_implemented e
           then Grader.GradeHTTPException 501
                  "Grading feature is not implemented (Part3/grader.py not found)."
           else Grader.GradeHTTPException 500
                  ("Internal server error during grading: " +:+ Grader.exn_text e))
        /\ List.length
             (Grader.rating_calls
                (snd (Grader.grade_transcript model_dump_json context w)))
           = S (List.length (Grader.rating_calls w))).
Proof.
  split; [|split].
  - intros He. unfold Grader.grade_transcript, Grader.evaluate_candidate.
    rewrite He. reflexivity.
  - intros Hne Htr. unfold Grader.grade_transcript, Grader.evaluate_candidate.
    rewrite Hne, Htr. reflexivity.
  - intros transcript_data e Hne Htr Hraise. unfold Grader.grade_transcript.
    rewrite (evaluate_candidate_steps context transcript_data w Hne Htr).
    cbv zeta. rewrite Hraise.
    destruct (Grader.is_not_implemented e); simpl;
      (split; [reflexivity|]); rewrite length_app; simpl; lia.
Qed.

(** X22. The context that the interviewer hands over is always gradable:
    for any session, the dict built by [get_context_for_grading] is not
    empty and has its transcript, so [evaluate_candidate] runs the first
    agent, and the first agent is given the session's job level, job
    description and resume and the human and ai entries of its
    transcript. *)
Theorem interview_context_is_gradable self env w :
  Grader.rating_calls
    (snd (Grader.evaluate_candidate model_dump_json
            (Some (Grader.context_dict_of (fst (get_context_for_grading self env))))
            w))
  !! List.length (Grader.rating_calls w)
  = Some (SystemMessage (Grader.grader_instruction "Initial Scorer" (job_level self) "")
          :: [ HumanMessage "--- JOB AND CANDIDATE CONTEXT ---";
               HumanMessage ("Job Level: " +:+ job_level self);
               HumanMessage ("Job Description: " +:+ job_description self);
               HumanMessage ("Candidate Resume: " +:+ resume_content self);
               HumanMessage "--- CONVERSATION TRANSCRIPT ---" ]
          ++ Grader.transcript_messages (transcript_history self)
          ++ [HumanMessage "--- END TRANSCRIPT ---"])%list.
Proof.
  rewrite (evaluate_candidate_steps _ (transcript_history self) w);
    [|reflexivity|reflexivity].
  cbv zeta.
  destruct (Grader.rating_script w (List.length (Grader.rating_calls w)));
    [destruct (Grader.rating_script w (S (List.length (Grader.rating_calls w))));
     [destruct (Grader.report_script w (Grader.report_writes w))|]|];
    cbn [Grader.rating_calls snd]; apply list_lookup_middle; reflexivity.
Qed.

End GraderFacts.

Lemma consensus_report_witness :
  Grader.is_empty_dict ada_context = false
  /\ Grader.cd_transcript ada_context = Some (transcript_history ada)
  /\ fst (Grader.evaluate_candidate dump_score (Some ada_context)
            (grader_scripted [Grader.Returned lenient_rating;
                              Grader.Returned strict_rating]))
     = Grader.Returned
         (Some (Grader.mkRating 70 ["honest"] ["shallow answers"]
                  "Strong Hire (Exceeded Threshold)")).
Proof.
  assert (Hb : (Z.abs (Grader.overall_score lenient_rating
                       + Grader.overall_score strict_rating) <= 2 ^ 53)%Z)
    by (vm_compute; discriminate).
  split; [reflexivity|]. split; [reflexivity|].
  exact (proj1 (consensus_report dump_score ada_context (transcript_history ada)
                  (grader_scripted [Grader.Returned lenient_rating;
                                    Grader.Returned strict_rating])
                  lenient_rating strict_rating
                  eq_refl eq_refl eq_refl eq_refl eq_refl Hb)).
Defined.

Lemma agents_read_the_same_transcript_witness :
  Grader.is_empty_dict ada_context = false
  /\ List.length
       (Grader.rating_calls
          (snd (Grader.evaluate_candidate dump_score (Some ada_context)
                  (grader_scripted [Grader.Returned lenient_rating;
                                    Grader.Returned strict_rating]))))
     = 2%nat.
Proof.
  split; [reflexivity|].
  rewrite (agents_read_the_same_transcript dump_score ada_context
             (transcript_history ada)
             (grader_scripted [Grader.Returned lenient_rating;
                               Grader.Returned strict_rating])
             lenient_rating eq_refl eq_refl eq_refl).
  reflexivity.
Defined.

Lemma report_saved_iff_returned_witness :
  fst (Grader.evaluate_candidate dump_score (Some empty_context) (grader_scripted []))
  = Grader.Returned None
  /\ snd (Grader.evaluate_candidate dump_score (Some empty_context)
            (grader_scripted []))
     = grader_scripted [].
Proof.
  split; [reflexivity|].
  exact (proj2 (report_saved_iff_returned dump_score (Some empty_context)
                  (grader_scripted [])) eq_refl).
Defined.

Lemma grade_transcript_failures_witness :
  Grader.is_empty_dict empty_context = true
  /\ Grader.grade_transcript dump_score empty_context (grader_scripted [])
     = (Grader.GradingComplete None, grader_scripted []).
Proof.
  split; [reflexivity|].
  exact (proj1 (grade_transcript_failures dump_score empty_context
                  (grader_scripted [])) eq_refl).
Defined.

(** * Properties of the job level *)

Lemma prefix_app_l k : forall a b,
  String.prefix k a = true -> String.prefix k (a +:+ b) = true.
Proof.
  induction k as [|c k IH]; intros a b H;
    [destruct a; simpl; [destruct b|]; reflexivity|].
  destruct a as [|c' a]; simpl in *; [discriminate|].
  destruct (ascii_dec c c'); [apply IH; exact H | discriminate].
Qed.

Lemma contains_app_l k a : forall b,
  contains k a = true -> contains k (a +:+ b) = true.
Proof.
  induction a as [|c a IH]; intros b H; unfold contains in *; fold contains in *.
  - apply orb_true_iff in H. destruct H as [H|H]; [|discriminate].
    destruct k; [|discriminate]. simpl. destruct b; reflexivity.
  - apply orb_true_iff in H. apply orb_true_iff. destruct H as [H|H].
    + left. apply (prefix_app_l k (String c a) b H).
    + right. simpl. apply IH. exact H.
Qed.

Lemma contains_app_r k a : forall b,
  contains k b = true -> contains k (a +:+ b) = true.
Proof.
  induction a as [|c a IH]; intros b H; [exact H|].
  simpl. unfold contains; fold contains. apply orb_true_iff. right.
  apply IH. exact H.
Qed.

Lemma lower_app a b :
  JobParser.lower (a +:+ b) = JobParser.lower a +:+ JobParser.lower b.
Proof. induction a as [|c a IH]; simpl; [reflexivity | rewrite IH; reflexivity]. Qed.

Lemma lower_char_idempotent c :
  JobParser.lower_char (JobParser.lower_char c) = JobParser.lower_char c.
Proof. destruct c as [[] [] [] [] [] [] [] []]; reflexivity. Qed.

Lemma lower_idempotent s : JobParser.lower (JobParser.lower s) = JobParser.lower s.
Proof.
  induction s as [|c s IH]; simpl; [reflexivity|].
  rewrite lower_char_idempotent, IH. reflexivity.
Qed.

Lemma junior_in_title job_title experience_required :
  contains "junior" (JobParser.lower job_title) = true ->
  JobParser.keyword_in JobParser.junior_keywords
    (JobParser.lower (job_title +:+ " " +:+ experience_required)) = true.
Proof.
  intros H. rewrite lower_app. unfold JobParser.keyword_in, JobParser.junior_keywords.
  simpl. rewrite (contains_app_l _ _ _ H). reflexivity.
Qed.

(** X23. "Not specified" is returned exactly when no keyword of the six
    lists occurs in the lower-cased title and experience text.  The closing
    test on the title alone never decides: a title with "junior" in it has
    already matched the junior keywords. *)
Theorem not_specified_iff_no_keyword job_title experience_required :
  JobParser.determine_job_level job_title experience_required = "Not specified"
  <-> forall keywords,
        In keywords [JobParser.internship_keywords; JobParser.associate_keywords;
                     JobParser.junior_keywords; JobParser.mid_level_keywords;
                     JobParser.senior_keywords; JobParser.expert_keywords] ->
        JobParser.keyword_in keywords
          (JobParser.lower (job_title +:+ " " +:+ experience_required)) = false.
Proof.
  unfold JobParser.determine_job_level. cbv zeta.
  pose proof (junior_in_title job_title experience_required) as Hdead.
  set (text := JobParser.lower (job_title +:+ " " +:+ experience_required)) in *.
  split.
  - intros Hres keywords Hin.
    destruct (JobParser.keyword_in JobParser.internship_keywords text) eqn:H1;
      [discriminate|].
    destruct (JobParser.keyword_in JobParser.associate_keywords text) eqn:H2;
      [discriminate|].
    destruct (JobParser.keyword_in JobParser.junior_keywords text) eqn:H3;
      [discriminate|].
    destruct (JobParser.keyword_in JobParser.mid_level_keywords text) eqn:H4;
      [discriminate|].
    destruct (JobParser.keyword_in JobParser.senior_keywords text) eqn:H5;
      [discriminate|].
    destruct (JobParser.keyword_in JobParser.expert_keywords text) eqn:H6;
      [discriminate|].
    simpl in Hin.
    destruct Hin as [<-|[<-|[<-|[<-|[<-|[<-|[]]]]]]]; assumption.
  - intros Hnone.
    rewrite !Hnone by (simpl; tauto).
    destruct (contains "junior" (JobParser.lower job_title)) eqn:Hj; [|reflexivity].
    specialize (Hdead eq_refl). rewrite Hnone in Hdead by (simpl; tauto).
    discriminate.
Qed.

(** X24. The level does not depend on letter case: lower-casing the title
    and the experience text beforehand gives the same level. *)
Theorem job_level_ignores_case job_title experience_required :
  JobParser.determine_job_level (JobParser.lower job_title)
                                (JobParser.lower experience_required)
  = JobParser.determine_job_level job_title experience_required.
Proof.
  unfold JobParser.determine_job_level.
  rewrite !lower_app, !lower_idempotent. reflexivity.
Qed.

(** X25. Keywords are looked for as substrings and the internship list is
    tried first: any title or experience text with "intern" in it, in any
    letter case and inside any word, gives the level Internship, whatever
    else the posting says. *)
Theorem intern_substring_wins job_title experience_required :
  contains "intern" (JobParser.lower job_title) = true
  \/ contains "intern" (JobParser.lower experience_required) = true ->
  JobParser.determine_job_level job_title experience_required = "Internship".
Proof.
  intros H. unfold JobParser.determine_job_level. cbv zeta.
  rewrite !lower_app.
  assert (Hin : contains "intern"
                  (JobParser.lower job_title +:+ JobParser.lower " "
                   +:+ JobParser.lower experience_required) = true).
  { destruct H as [H|H]; [apply contains_app_l; exact H|].
    apply contains_app_r, contains_app_r. exact H. }
  unfold JobParser.keyword_in, JobParser.internship_keywords. cbn [existsb].
  rewrite Hin, orb_true_r. reflexivity.
Qed.

Lemma intern_substring_wins_witness :
  (contains "intern" (JobParser.lower "Senior International Sales Lead") = true
   \/ contains "intern" (JobParser.lower "10+ years") = true)
  /\ JobParser.determine_job_level "Senior International Sales Lead" "10+ years"
     = "Internship".
Proof.
  assert (H : contains "intern" (JobParser.lower "Senior International Sales Lead")
              = true
              \/ contains "intern" (JobParser.lower "10+ years") = true)
    by (left; vm_compute; reflexivity).
  split; [exact H|].
  exact (intern_substring_wins "Senior International Sales Lead" "10+ years" H).
Defined.

(** X26. There is no mid-level label: a posting that has a mid-level
    keyword and no internship, associate or junior keyword gets the level
    Junior, also when it has senior or expert keywords. *)
Theorem mid_level_is_junior job_title experience_required :
  JobParser.keyword_in JobParser.mid_level_keywords
    (JobParser.lower (job_title +:+ " " +:+ experience_required)) = true ->
  JobParser.keyword_in JobParser.internship_keywords
    (JobParser.lower (job_title +:+ " " +:+ experience_required)) = false ->
  JobParser.keyword_in JobParser.associate_keywords
    (JobParser.lower (job_title +:+ " " +:+ experience_required)) = false ->
  JobParser.determine_job_level job_title experience_required = "Junior".
Proof.
  intros Hmid Hint Hassoc. unfold JobParser.determine_job_level. cbv zeta.
  rewrite Hint, Hassoc, Hmid.
  destruct (JobParser.keyword_in JobParser.junior_keywords _); reflexivity.
Qed.

Lemma mid_level_is_junior_witness :
  JobParser.keyword_in JobParser.mid_level_keywords
    (JobParser.lower ("Mid-Level Software Architect" +:+ " " +:+ "3-5 years")) = true
  /\ JobParser.determine_job_level "Mid-Level Software Architect" "3-5 years"
     = "Junior".
Proof.
  split; [vm_compute; reflexivity|].
  apply (mid_level_is_junior "Mid-Level Software Architect" "3-5 years");
    vm_compute; reflexivity.
Defined.

Lemma not_specified_iff_no_keyword_witness :
  JobParser.determine_job_level "Data Scientist" "two years" = "Not specified".
Proof.
  apply (proj2 (not_specified_iff_no_keyword "Data Scientist" "two years")).
  intros keywords Hin. simpl in Hin.
  destruct Hin as [<-|[<-|[<-|[<-|[<-|[<-|[]]]]]]]; vm_compute; reflexivity.
Defined.
